(** * Niralysis: displacement tables and threshold windows

    A shallow embedding of [niralysis/calculate_differences.py] and the
    properties of its three stages: the per-channel delta scan, the
    threshold window search and the per-range aggregation.

    Modelling conventions.
    - Coordinates are exact integers ([Z]); a cell of a frame is a
      [cell Z], where [None] is the missing marker (NaN) that pandas
      puts in every cell nobody assigned.
    - A [DataFrame] keeps its column labels, its row labels and its
      cells column by column, the way pandas stores them.
    - Exceptions are values of [exception]; code that can raise returns a
      [result].
    - Row labels are natural numbers. The theorems about the delta scan
      assume the default row labels [0 .. T-1], which the function reads
      its rows by; without them a read raises [KeyError]. *)

From Stdlib Require Import ZArith Lia.
From stdpp Require Import base option list sorting gmap strings numbers pretty.

(** ** Python: exceptions and loops *)

Module Py.

Inductive exception : Type :=
| ValueError (msg : string)
| KeyError (key : string + nat).

Inductive result (A : Type) : Type :=
| Ok (a : A)
| Raise (e : exception).
Arguments Ok {A} a.
Arguments Raise {A} e.

#[export] Instance result_ret : MRet result := λ A a, Ok a.
#[export] Instance result_bind : MBind result := λ A B f m,
  match m with Ok a => f a | Raise e => Raise e end.
#[export] Instance result_fmap : FMap result := λ A B f m,
  match m with Ok a => Ok (f a) | Raise e => Raise e end.

(** [for a in l: st = body(st, a)] *)
Fixpoint for_each {A S : Type} (l : list A) (body : S → A → result S) (st : S)
  : result S :=
  match l with
  | [] => Ok st
  | a :: l' => st' ← body st a; for_each l' body st'
  end.

(** [range(n)] *)
Definition range (n : nat) : list nat := seq 0 n.

(** [a and b] on conditions whose evaluation may raise: [b] is evaluated
    only when [a] is true. *)
Definition and_ (a b : result bool) : result bool :=
  c ← a; if c : bool then b else Ok false.

(** [l[i:j]] for [0 <= i], [0 <= j]: clipped at the end of the list. *)
Definition slice {A : Type} (l : list A) (i j : nat) : list A :=
  take (j - i) (drop i l).

(** The built-in [sum] over integers: a left fold from 0. *)
Definition sum_ints (l : list Z) : Z := foldl Z.add 0%Z l.

End Py.
Export Py.

(** ** pandas: frames, series and the operations the program uses *)

Module Pandas.

(** A cell: a value, or NaN. *)
Definition cell (A : Type) : Type := option A.

Record Series (A : Type) : Type := mkSeries {
  s_index : list nat;
  s_values : gmap nat A
}.
Arguments mkSeries {A} _ _.
Arguments s_index {A} _.
Arguments s_values {A} _.

Record DataFrame (A : Type) : Type := mkDataFrame {
  columns : list string;
  index : list nat;
  data : gmap string (gmap nat A)
}.
Arguments mkDataFrame {A} _ _ _.
Arguments columns {A} _.
Arguments index {A} _.
Arguments data {A} _.

(** [pd.DataFrame(columns=cols, index=idx)]: every cell is NaN. *)
Definition new_frame {A : Type} (cols : list string) (idx : list nat)
  : DataFrame A :=
  mkDataFrame cols idx ∅.

(** [df.empty]: some axis has length 0. *)
Definition frame_empty {A : Type} (df : DataFrame A) : bool :=
  (length (index df) =? 0) || (length (columns df) =? 0).

(** [len(df)] and [df.shape[0]]: the number of rows. *)
Definition len {A : Type} (df : DataFrame A) : nat := length (index df).

(** The values of a series in row order, as [list(s)] gives them. *)
Definition series_values {A : Type} (s : Series A) : list (cell A) :=
  (λ t, s_values s !! t) <$> s_index s.

(** The column [kp] of a frame as a series, and its values in row order. *)
Definition column {A : Type} (df : DataFrame A) (kp : string) : Series A :=
  mkSeries (index df) (data df !!! kp).
Definition column_values {A : Type} (df : DataFrame A) (kp : string)
  : list (cell A) :=
  series_values (column df kp).

(** [df[kp]] *)
Definition getitem {A : Type} (df : DataFrame A) (kp : string)
  : result (Series A) :=
  if decide (kp ∈ columns df)
  then Ok (column df kp)
  else Raise (KeyError (inl kp)).

(** [s[t]] for an integer label [t] *)
Definition series_getitem {A : Type} (s : Series A) (t : nat)
  : result (cell A) :=
  if decide (t ∈ s_index s)
  then Ok (s_values s !! t)
  else Raise (KeyError (inr t)).

(** [df[kp][t]] *)
Definition item {A : Type} (df : DataFrame A) (kp : string) (t : nat)
  : result (cell A) :=
  s ← getitem df kp; series_getitem s t.

(** The cell of a frame at a column and a row label, NaN when absent. *)
Definition cell_at {A : Type} (df : DataFrame A) (kp : string) (t : nat)
  : cell A :=
  (data df !!! kp) !! t.

(** [df.at[t, kp] = v]: sets the cell; a label that the frame does not
    have yet is appended to its axis (setting with enlargement). *)
Definition at_set {A : Type} (df : DataFrame A) (t : nat) (kp : string)
    (v : cell A) : DataFrame A :=
  mkDataFrame
    (if decide (kp ∈ columns df) then columns df else columns df ++ [kp])
    (if decide (t ∈ index df) then index df else index df ++ [t])
    (<[kp := partial_alter (λ _, v) t (data df !!! kp)]> (data df)).

(** [s[i:j]] with integer bounds: a slice by position. *)
Definition series_slice {A : Type} (s : Series A) (i j : nat)
  : list (cell A) :=
  slice (series_values s) i j.

(** Comparisons and subtraction on cells: every comparison with NaN is
    false, and NaN absorbs subtraction. *)
Definition gt0 (c : cell Z) : bool :=
  match c with Some v => (0 <? v)%Z | None => false end.
Definition eq0 (c : cell Z) : bool :=
  match c with Some v => (v =? 0)%Z | None => false end.
Definition sub (a b : cell Z) : cell Z :=
  match a, b with Some x, Some y => Some (x - y)%Z | _, _ => None end.

(** [s.sum()] with the default [skipna=True]. *)
Definition series_sum (l : list (cell Z)) : Z :=
  sum_ints (omap id l).

End Pandas.
Export Pandas.

(** ** [get_table_of_deltas_between_time_stamps_in_all_kps] *)

(** The local variables of the function. The two scalars are unbound until
    the first channel is entered; they are 0 here, and every channel
    resets them before it reads them. *)
Record locals : Type := mkLocals {
  counter_of_all_zeros_in_a_row_for_all_kps : gmap string (gmap nat nat);
  deltas : DataFrame Z;
  loc_of_last_timestamp_before_zero : nat;
  counter_of_zeros_in_a_row : nat
}.

Section DeltaScan.

Variable x_y_data : DataFrame Z.

(** The four conditions of the [if]/[elif] chain, as written. *)
Definition cond_both_positive (kp : string) (time_stamp : nat) : result bool :=
  and_ (gt0 <$> item x_y_data kp time_stamp)
       (gt0 <$> item x_y_data kp (time_stamp + 1)).
Definition cond_zero_then_positive (kp : string) (time_stamp : nat) : result bool :=
  and_ (eq0 <$> item x_y_data kp time_stamp)
       (gt0 <$> item x_y_data kp (time_stamp + 1)).
Definition cond_both_zero (kp : string) (time_stamp : nat) : result bool :=
  and_ (eq0 <$> item x_y_data kp time_stamp)
       (eq0 <$> item x_y_data kp (time_stamp + 1)).
Definition cond_positive_then_zero (kp : string) (time_stamp : nat) : result bool :=
  and_ (gt0 <$> item x_y_data kp time_stamp)
       (eq0 <$> item x_y_data kp (time_stamp + 1)).

(** The body of the inner loop: one transition of one channel. *)
Definition transition (kp : string) (st : locals) (time_stamp : nat)
  : result locals :=
  let '(mkLocals counters deltas loc counter) := st in
  c1 ← cond_both_positive kp time_stamp;
  if c1 : bool then
    next ← item x_y_data kp (time_stamp + 1);
    this ← item x_y_data kp time_stamp;
    Ok (mkLocals counters (at_set deltas time_stamp kp (sub next this))
                 loc counter)
  else
  c2 ← cond_zero_then_positive kp time_stamp;
  if c2 : bool then
    let loc_of_time_stamp := loc in
    this_time_stamp_value ← item x_y_data kp loc_of_time_stamp;
    next_time_stamp_value ← item x_y_data kp (time_stamp + 1);
    Ok (mkLocals
          (<[kp := <[time_stamp := counter]> (counters !!! kp)]> counters)
          (at_set deltas time_stamp kp
                  (sub next_time_stamp_value this_time_stamp_value))
          loc 0)
  else
  c3 ← cond_both_zero kp time_stamp;
  if c3 : bool then
    Ok (mkLocals counters (at_set deltas time_stamp kp (Some 0%Z))
                 loc (counter + 1))
  else
  c4 ← cond_positive_then_zero kp time_stamp;
  if c4 : bool then
    Ok (mkLocals counters (at_set deltas time_stamp kp (Some 0%Z))
                 time_stamp 1)
  else Ok st.

(** The first three statements of the outer loop body. *)
Definition enter_channel (kp : string) (st : locals) : locals :=
  mkLocals (<[kp := ∅]> (counter_of_all_zeros_in_a_row_for_all_kps st))
           (deltas st) 0 0.

(** The body of the outer loop: the scan of one channel. *)
Definition scan_channel (st : locals) (kp : string) : result locals :=
  for_each (range (len x_y_data - 1)) (transition kp) (enter_channel kp st).

(** The statements before the outer loop. *)
Definition initial_locals : locals :=
  mkLocals ∅ (new_frame (columns x_y_data) (range (len x_y_data - 1))) 0 0.

(** The function up to its [return]: the locals at that point. *)
Definition locals_at_return : result locals :=
  if frame_empty x_y_data
  then Raise (ValueError "The input DataFrame is empty.")
  else for_each (columns x_y_data) scan_channel initial_locals.

Definition get_table_of_deltas_between_time_stamps_in_all_kps
  : result (DataFrame Z) :=
  deltas <$> locals_at_return.

End DeltaScan.

(** ** [get_start_to_end_list] *)

Definition get_start_to_end_list (values_x values_y : list Z) (threshold : Z)
  : list (nat * nat) :=
  foldl (λ start_to_end_locations_tuple_list i,
    foldl (λ start_to_end_locations_tuple_list j,
      if (threshold <? sum_ints (slice values_x i (i + j)))%Z
         || (threshold <? sum_ints (slice values_y i (i + j)))%Z
      then start_to_end_locations_tuple_list ++ [(i, i + j)]
      else start_to_end_locations_tuple_list)
    start_to_end_locations_tuple_list (range 30))
  [] (range (length values_x)).

(** ** [create_timestamps_column] and [create_column_of_sum_for_kp_in_range] *)

(** The f-string [f"{i}-{j}"]. *)
Definition timestamps_label (i j : nat) : string :=
  pretty i +:+ "-" +:+ pretty j.

Definition create_timestamps_column
    (start_to_end_locations_tuple_list : list (nat * nat)) : DataFrame string :=
  foldl (λ timestamps_column '(i, j),
           at_set timestamps_column i "timestamps" (Some (timestamps_label i j)))
        (new_frame ["timestamps"] []) start_to_end_locations_tuple_list.

Definition create_column_of_sum_for_kp_in_range
    (delta_kp_column : Series Z) (ranges : list (nat * nat)) : DataFrame Z :=
  foldl (λ sum_rows '(i, j),
           at_set sum_rows i "sums"
                  (Some (series_sum (series_slice delta_kp_column i j))))
        (new_frame ["sums"] []) ranges.

(** A frame built from columns of integers with the default row labels
    [0 .. T-1], as [pd.DataFrame({kp: values, ...})] builds it. *)
Definition frame_of_columns (cols : list (string * list Z)) (T : nat)
  : DataFrame Z :=
  mkDataFrame (cols.*1) (range T)
              (list_to_map ((λ c, (c.1, map_seq 0 c.2)) <$> cols)).

(** * Vocabulary of the properties *)

(** ** The delta scan in closed form *)

(** The branch of the [if]/[elif] chain that a pair of neighbouring cells
    selects, if any. *)
Inductive branch : Type :=
| BothPositive | ZeroThenPositive | BothZero | PositiveThenZero.

Definition branch_of (a b : cell Z) : option branch :=
  if gt0 a && gt0 b then Some BothPositive
  else if eq0 a && gt0 b then Some ZeroThenPositive
  else if eq0 a && eq0 b then Some BothZero
  else if gt0 a && eq0 b then Some PositiveThenZero
  else None.

(** What one transition does to the locals once its three reads have
    succeeded with [a], [b] (cells [time_stamp], [time_stamp + 1]) and [l]
    (the cell at [loc_of_last_timestamp_before_zero]). *)
Definition transition_on (kp : string) (time_stamp : nat) (a b l : cell Z)
    (st : locals) : locals :=
  let '(mkLocals counters deltas loc counter) := st in
  match branch_of a b with
  | Some BothPositive =>
      mkLocals counters (at_set deltas time_stamp kp (sub b a)) loc counter
  | Some ZeroThenPositive =>
      mkLocals (<[kp := <[time_stamp := counter]> (counters !!! kp)]> counters)
               (at_set deltas time_stamp kp (sub b l)) loc 0
  | Some BothZero =>
      mkLocals counters (at_set deltas time_stamp kp (Some 0%Z)) loc (counter + 1)
  | Some PositiveThenZero =>
      mkLocals counters (at_set deltas time_stamp kp (Some 0%Z)) time_stamp 1
  | None => st
  end.

(** The two scalars of a channel's scan before transition [i], computed from
    the cells [c] of the channel alone: the pair
    [(loc_of_last_timestamp_before_zero, counter_of_zeros_in_a_row)]. *)
Fixpoint gap_state_before (c : nat → cell Z) (i : nat) : nat * nat :=
  match i with
  | 0 => (0, 0)
  | S n =>
      let s := gap_state_before c n in
      match branch_of (c n) (c (n + 1)) with
      | Some ZeroThenPositive => (s.1, 0)
      | Some BothZero => (s.1, s.2 + 1)
      | Some PositiveThenZero => (n, 1)
      | Some BothPositive | None => s
      end
  end.

(** The value that transition [t] writes into the delta table, if it
    writes one. *)
Definition assigned_delta (c : nat → cell Z) (t : nat) : option (cell Z) :=
  match branch_of (c t) (c (t + 1)) with
  | Some BothPositive => Some (sub (c (t + 1)) (c t))
  | Some ZeroThenPositive => Some (sub (c (t + 1)) (c (gap_state_before c t).1))
  | Some BothZero | Some PositiveThenZero => Some (Some 0%Z)
  | None => None
  end.

(** The zero-run length that transition [t] records, if it records one. *)
Definition recorded_zero_run (c : nat → cell Z) (t : nat) : option nat :=
  match branch_of (c t) (c (t + 1)) with
  | Some ZeroThenPositive => Some (gap_state_before c t).2
  | _ => None
  end.

(** The cells of channel [kp] of the input table, by row label. *)
Definition channel_cells (x_y_data : DataFrame Z) (kp : string) : nat → cell Z :=
  cell_at x_y_data kp.

(** The locals [st] after the first [i] transitions of channel [kp],
    entered with the locals [E]. *)
Record scan_inv (x_y_data : DataFrame Z) (kp : string) (E st : locals) (i : nat)
  : Prop := {
  inv_loc :
    loc_of_last_timestamp_before_zero st
    = (gap_state_before (channel_cells x_y_data kp) i).1;
  inv_counter :
    counter_of_zeros_in_a_row st
    = (gap_state_before (channel_cells x_y_data kp) i).2;
  inv_columns : columns (deltas st) = columns (deltas E);
  inv_index : index (deltas st) = index (deltas E);
  inv_cells : ∀ kp' t,
    cell_at (deltas st) kp' t =
    if decide (kp' = kp ∧ t < i)
    then default (cell_at (deltas E) kp' t)
                 (assigned_delta (channel_cells x_y_data kp) t)
    else cell_at (deltas E) kp' t;
  inv_counters : ∀ kp' t,
    (counter_of_all_zeros_in_a_row_for_all_kps st !!! kp') !! t =
    if decide (kp' = kp)
    then (if decide (t < i)
          then recorded_zero_run (channel_cells x_y_data kp) t else None)
    else (counter_of_all_zeros_in_a_row_for_all_kps E !!! kp') !! t
}.

(** The cell that the finished scan leaves at row [t] of channel [kp]:
    the value written by transition [t], or NaN if it wrote none. *)
Definition final_cell (x_y_data : DataFrame Z) (kp : string) (t : nat) : cell Z :=
  default None (assigned_delta (channel_cells x_y_data kp) t).

(** The delta frame of the locals has the channels of the input and the
    rows [0 .. T-2]. *)
Definition frame_shape (x_y_data : DataFrame Z) (T : nat) (st : locals) : Prop :=
  columns (deltas st) = columns x_y_data ∧ index (deltas st) = range (T - 1).

(** Every cell of the delta frame is still NaN or already final. *)
Definition cells_sound (x_y_data : DataFrame Z) (st : locals) : Prop :=
  ∀ kp t, cell_at (deltas st) kp t = None
          ∨ cell_at (deltas st) kp t = final_cell x_y_data kp t.

(** Channel [kp] has been scanned: its cells and its recorded zero runs
    are final. *)
Definition channel_done (x_y_data : DataFrame Z) (T : nat) (st : locals)
    (kp : string) : Prop :=
  (∀ t, t < T - 1 → cell_at (deltas st) kp t = final_cell x_y_data kp t)
  ∧ (∀ t, (counter_of_all_zeros_in_a_row_for_all_kps st !!! kp) !! t =
          if decide (t < T - 1)
          then recorded_zero_run (channel_cells x_y_data kp) t else None).

(** Channel [kp] is the same in the locals [E] and [st]. *)
Definition same_channel (E st : locals) (kp : string) : Prop :=
  (∀ t, cell_at (deltas st) kp t = cell_at (deltas E) kp t)
  ∧ (∀ t, (counter_of_all_zeros_in_a_row_for_all_kps st !!! kp) !! t =
          (counter_of_all_zeros_in_a_row_for_all_kps E !!! kp) !! t).

(** ** Tables of numbers *)

(** Every cell of the table holds a number satisfying [p]. *)
Definition all_values (p : Z → bool) (x_y_data : DataFrame Z) : bool :=
  forallb (λ kp,
    forallb (λ t, match cell_at x_y_data kp t with
                  | Some v => p v
                  | None => false
                  end) (index x_y_data)) (columns x_y_data).

Definition numeric_table : DataFrame Z → bool := all_values (λ _, true).
Definition nonnegative_table : DataFrame Z → bool := all_values (λ v, (0 <=? v)%Z).

(** The number in a cell of the input table (0 for NaN). *)
Definition value (x_y_data : DataFrame Z) (kp : string) (t : nat) : Z :=
  default 0%Z (cell_at x_y_data kp t).

(** ** The four-branch rule of the specification *)

(** The per-channel scan state of the written rule. *)
Record GapState : Type := mkGapState {
  last_known_good_index : nat;
  zero_run_length : nat
}.

(** [four_branch_rule v i s d r s']: at transition [i] of a channel with
    values [v], in state [s], the written rule gives the delta [d], records
    the diagnostic [r] (or none) and moves to the state [s']. *)
Inductive four_branch_rule (v : nat → Z) (i : nat) (s : GapState)
  : Z → option nat → GapState → Prop :=
| rule_both_positive :
    (v i > 0)%Z → (v (i + 1)%nat > 0)%Z →
    four_branch_rule v i s (v (i + 1)%nat - v i)%Z None s
| rule_zero_then_positive :
    v i = 0%Z → (v (i + 1)%nat > 0)%Z →
    four_branch_rule v i s
      (v (i + 1)%nat - v (last_known_good_index s))%Z
      (Some (zero_run_length s))
      (mkGapState (last_known_good_index s) 0)
| rule_both_zero :
    v i = 0%Z → v (i + 1) = 0%Z →
    four_branch_rule v i s 0%Z None
      (mkGapState (last_known_good_index s) (zero_run_length s + 1))
| rule_positive_then_zero :
    (v i > 0)%Z → v (i + 1) = 0%Z →
    four_branch_rule v i s 0%Z None (mkGapState i 1).

(** The scan state held by the locals of the function. *)
Definition gap_state_of (st : locals) : GapState :=
  mkGapState (loc_of_last_timestamp_before_zero st)
             (counter_of_zeros_in_a_row st).

(** Channel [kp] of the table follows the rule: there is a run [gs] of
    scan states, starting from [(0, 0)], that the locals of the function
    go through as the channel is scanned, and along which every
    transition [i] of the channel produces the delta and the diagnostic
    that the rule gives. *)
Definition follows_four_branch_rule (x_y_data : DataFrame Z) (T : nat)
    (kp : string) : Prop :=
  ∃ gs : nat → GapState,
    gs 0 = mkGapState 0 0
    ∧ (∀ E i, frame_shape x_y_data T E → i < T →
         ∃ st, for_each (range i) (transition x_y_data kp) (enter_channel kp E)
               = Ok st
               ∧ gap_state_of st = gs i)
    ∧ (∀ i, i + 1 < T →
         ∃ L d, locals_at_return x_y_data = Ok L
           ∧ four_branch_rule (value x_y_data kp) i (gs i) d
               ((counter_of_all_zeros_in_a_row_for_all_kps L !!! kp) !! i)
               (gs (i + 1))
           ∧ cell_at (deltas L) kp i = Some d).

(** ** Exceptions and branch conditions *)

Definition is_key_error (e : exception) : Prop :=
  match e with KeyError _ => True | ValueError _ => False end.

(** The four conditions of transition [i] of channel [kp], in the order of
    the [if]/[elif] chain. *)
Definition conditions (x_y_data : DataFrame Z) (kp : string) (i : nat)
  : list (result bool) :=
  [cond_both_positive x_y_data kp i; cond_zero_then_positive x_y_data kp i;
   cond_both_zero x_y_data kp i; cond_positive_then_zero x_y_data kp i].

(** How many of some conditions hold. *)
Definition holding (bs : list bool) : nat := count_occ Bool.bool_dec bs true.

(** ** The reference definition of the threshold segmenter *)

(** The fixed maximum window length. *)
Definition W : nat := 30.

(** The sum of the deltas [ref[k]] for [i <= k < i + j], with the window
    clipped at the end of the sequence: an index past the end contributes
    nothing. *)
Definition clipped_window_sum (ref : list Z) (i j : nat) : Z :=
  foldr Z.add 0%Z (omap (λ k, ref !! k) (seq i j)).

(** The ranges of the written algorithm: for every start index [i] in
    [[0, N)] and every window length [j] in [[0, W)], in this order, the
    pair [(i, i + j)] if one of the two window sums exceeds the
    threshold. *)
Definition find_ranges_reference (ref_x ref_y : list Z) (threshold : Z)
  : list (nat * nat) :=
  i ← seq 0 (length ref_x);
  j ← seq 0 W;
  if bool_decide ((threshold < clipped_window_sum ref_x i j)%Z
                  ∨ (threshold < clipped_window_sum ref_y i j)%Z)
  then [(i, i + j)] else [].

(** Ascending by start index, then by end index. *)
Definition range_lt (a b : nat * nat) : Prop :=
  a.1 < b.1 ∨ (a.1 = b.1 ∧ a.2 < b.2).

(** ** The range aggregator *)

(** Both column builders run the same loop: for every range [(i, j)], in
    order, set the cell of row key [i] to a value computed from [(i, j)]. *)
Definition fill_rows {A : Type} (col : string) (f : nat → nat → A)
    (df : DataFrame A) (ranges : list (nat * nat)) : DataFrame A :=
  foldl (λ df '(i, j), at_set df i col (Some (f i j))) df ranges.

(** ** Example tables *)

(** A six-step channel that starts undetected, and a five-step channel
    with a run of three zeros. *)
Definition scenario_table : DataFrame Z :=
  frame_of_columns [("kp", [0; 5; 5; 0; 0; 9]%Z)] 6.
Definition zero_run_table : DataFrame Z :=
  frame_of_columns [("kp", [3; 0; 0; 0; 7]%Z)] 5.

(** A table with one row and no channel, and a table with one row and one
    channel. *)
Definition one_row_no_channel : DataFrame Z := mkDataFrame [] [0] ∅.
Definition one_row_table : DataFrame Z := frame_of_columns [("kp", [7]%Z)] 1.

Definition mixed_table : DataFrame Z :=
  frame_of_columns [("a", [-1; 2; 0; 4]%Z); ("b", [1; 2; 0; 5]%Z)] 4.

Definition example_column : Series Z :=
  mkSeries (range 9) (map_seq 0 [1; 2; 3; 4; 5; 6; 7; 8; 9]%Z).

(** * The rest of the module and further vocabulary *)

(** ** [get_distance_of_coordinate_between_two_time_stamps] *)

Definition get_distance_of_coordinate_between_two_time_stamps
    (coordinate1 coordinate2 : Z) : Z :=
  (coordinate2 - coordinate1)%Z.

(** ** Channels of numbers *)

(** Every cell of channel [kp] holds a number satisfying [p]. *)
Definition channel_all (p : Z → bool) (x_y_data : DataFrame Z) (kp : string)
  : bool :=
  forallb (λ t, match cell_at x_y_data kp t with
                | Some v => p v
                | None => false
                end) (index x_y_data).

Definition nonnegative_channel : DataFrame Z → string → bool :=
  channel_all (λ v, (0 <=? v)%Z).
Definition positive_channel : DataFrame Z → string → bool :=
  channel_all (λ v, (0 <? v)%Z).

(** The last step up to [i] at which the channel [v] was detected (its
    value is positive), or 0 if there is none. *)
Fixpoint last_detected (v : nat → Z) (i : nat) : nat :=
  match i with
  | 0 => 0
  | S n => if (0 <? v (S n))%Z then S n else last_detected v n
  end.

(** More example tables: a channel without zeros, a channel that starts
    with three zeros, and a table whose row labels start at 1. *)
Definition steady_table : DataFrame Z :=
  frame_of_columns [("kp", [2; 5; 4; 9]%Z)] 4.
Definition late_start_table : DataFrame Z :=
  frame_of_columns [("kp", [0; 0; 0; 7]%Z)] 4.
Definition shifted_labels_table : DataFrame Z :=
  mkDataFrame ["kp"] [1; 2; 3] {[ "kp" := map_seq 1 [4; 5; 6]%Z ]}.
Definition other_mixed_table : DataFrame Z :=
  frame_of_columns [("c", [9; 9; 9; 9]%Z); ("a", [-1; 2; 0; 4]%Z)] 4.

(** ** [get_table_of_summed_distances_for_kp_over_time] *)

(** The values that a summary table holds: labels and sums. *)
Inductive pyval : Type :=
| PyStr (s : string)
| PyInt (z : Z).

(** A frame with every value seen through [f]. *)
Definition frame_map {A B : Type} (f : A → B) (df : DataFrame A) : DataFrame B :=
  mkDataFrame (columns df) (index df)
              ((λ column : gmap nat A, f <$> column) <$> data df).

(** [df[key] = value] for a frame [value] with a single column: the column
    is stored under [key], aligned on the row labels of [df] (rows of
    [value] with other labels are dropped, rows of [df] that [value] does
    not have get NaN). A [df] without rows first takes the row labels of a
    [value] that has rows. pandas refuses a [value] with no or with
    several columns. *)
Definition setitem_frame {A : Type} (df : DataFrame A) (key : string)
    (value : DataFrame A) : result (DataFrame A) :=
  match columns value with
  | [c] =>
      let adopt :=
        bool_decide (index df = []) && negb (bool_decide (index value = [])) in
      let idx := if adopt then index value else index df in
      Ok (mkDataFrame
            (if decide (key ∈ columns df) then columns df else columns df ++ [key])
            idx
            (<[key := filter (λ kv, kv.1 ∈ idx) (data value !!! c)]>
               (if adopt then ∅ else data df)))
  | _ => Raise (ValueError "Columns must be same length as key")
  end.

(** Addition and the built-in [sum] on numbers that may be NaN, and the
    comparison [c > threshold]: NaN absorbs addition and every comparison
    with NaN is false. *)
Definition add_cell (a b : cell Z) : cell Z :=
  match a, b with Some x, Some y => Some (x + y)%Z | _, _ => None end.
Definition sum_cells (l : list (cell Z)) : cell Z := foldl add_cell (Some 0%Z) l.
Definition cell_gt (c : cell Z) (threshold : Z) : bool :=
  match c with Some v => (threshold <? v)%Z | None => false end.

(** [get_start_to_end_list] on lists that may hold NaN, as the list of a
    frame column can. *)
Definition get_start_to_end_list_nan (values_x values_y : list (cell Z))
    (threshold : Z) : list (nat * nat) :=
  foldl (λ start_to_end_locations_tuple_list i,
    foldl (λ start_to_end_locations_tuple_list j,
      if cell_gt (sum_cells (slice values_x i (i + j))) threshold
         || cell_gt (sum_cells (slice values_y i (i + j))) threshold
      then start_to_end_locations_tuple_list ++ [(i, i + j)]
      else start_to_end_locations_tuple_list)
    start_to_end_locations_tuple_list (range 30))
  [] (range (length values_x)).

Definition nose_columns_names : list string := ["KP_0_x"; "KP_0_y"].

Definition get_table_of_summed_distances_for_kp_over_time
    (deltas_table : DataFrame Z) (threshold : Z) : result (DataFrame pyval) :=
  let sums : DataFrame pyval := new_frame (columns deltas_table) [] in
  nose_x ← getitem deltas_table (nose_columns_names !!! 0);
  let nose_x_list := series_values nose_x in
  nose_y ← getitem deltas_table (nose_columns_names !!! 1);
  let nose_y_list := series_values nose_y in
  let start_to_end_locations_tuple_list :=
    get_start_to_end_list_nan nose_x_list nose_y_list threshold in
  sums ← setitem_frame sums "timestamps"
           (frame_map PyStr
              (create_timestamps_column start_to_end_locations_tuple_list));
  for_each (columns deltas_table)
    (λ sums kp,
       delta_kp_column ← getitem deltas_table kp;
       let column_of_sums_per_kb :=
         create_column_of_sum_for_kp_in_range
           delta_kp_column start_to_end_locations_tuple_list in
       setitem_frame sums kp (frame_map PyInt column_of_sums_per_kb))
    sums.

(** The body of the loop over the channels, for a given range list. *)
Definition store_channel_sums (deltas_table : DataFrame Z)
    (ranges : list (nat * nat)) (sums : DataFrame pyval) (kp : string)
  : result (DataFrame pyval) :=
  delta_kp_column ← getitem deltas_table kp;
  setitem_frame sums kp
    (frame_map PyInt
       (create_column_of_sum_for_kp_in_range delta_kp_column ranges)).

(** Delta tables for the summary: one with the two reference channels and
    a third channel, one without reference channels. *)
Definition nose_deltas : DataFrame Z :=
  frame_of_columns [("KP_0_x", [1; 4; 2]%Z); ("KP_0_y", [0; 0; 3]%Z);
                    ("KP_1_x", [5; -2; 7]%Z)] 3.
Definition no_reference_deltas : DataFrame Z :=
  frame_of_columns [("KP_1_x", [5; -2; 7]%Z)] 3.


(** * Properties *)

(** ** Loops and frames *)

Lemma for_each_app {A S : Type} (l1 l2 : list A) (body : S → A → result S) (st : S) :
  for_each (l1 ++ l2) body st = st' ← for_each l1 body st; for_each l2 body st'.
Proof.
  revert st. induction l1 as [|a l1 IH]; intros st; simpl; [done|].
  destruct (body st a) as [st'|e]; simpl; [apply IH | done].
Qed.

Lemma range_S (n : nat) : range (S n) = range n ++ [n].
Proof. unfold range. by rewrite seq_S. Qed.

Lemma elem_of_range (n t : nat) : t ∈ range n ↔ t < n.
Proof. unfold range. rewrite elem_of_seq. lia. Qed.

Lemma cell_at_at_set {A : Type} (df : DataFrame A) t kp v kp' t' :
  cell_at (at_set df t kp v) kp' t'
  = if decide (kp = kp' ∧ t = t') then v else cell_at df kp' t'.
Proof.
  unfold cell_at, at_set; simpl.
  destruct (decide (kp = kp')) as [<-|Hkp].
  - rewrite lookup_total_insert_eq.
    destruct (decide (t = t')) as [<-|Ht].
    + rewrite lookup_partial_alter_eq. by rewrite decide_True.
    + rewrite lookup_partial_alter_ne by done. rewrite decide_False; [done|tauto].
  - rewrite lookup_total_insert_ne by done. rewrite decide_False; [done|tauto].
Qed.

Lemma cell_at_new_frame {A : Type} cols idx kp t :
  cell_at (new_frame (A:=A) cols idx) kp t = None.
Proof.
  unfold cell_at, new_frame; simpl.
  unfold lookup_total, map_lookup_total. by rewrite lookup_empty.
Qed.

Lemma at_set_shape {A : Type} (df : DataFrame A) t kp v :
  kp ∈ columns df → t ∈ index df →
  columns (at_set df t kp v) = columns df ∧ index (at_set df t kp v) = index df.
Proof. intros Hkp Ht. unfold at_set; simpl. by rewrite !decide_True. Qed.

Lemma item_default_index {A : Type} (df : DataFrame A) (T : nat) kp t :
  index df = range T → kp ∈ columns df → t < T →
  item df kp t = Ok (cell_at df kp t).
Proof.
  intros Hidx Hkp Ht. unfold item, getitem, series_getitem.
  rewrite decide_True by done. simpl.
  rewrite decide_True; [done|]. rewrite Hidx. by apply elem_of_range.
Qed.

(** ** One channel *)

Lemma transition_reads (x_y_data : DataFrame Z) kp st time_stamp a b l :
  item x_y_data kp time_stamp = Ok a →
  item x_y_data kp (time_stamp + 1) = Ok b →
  item x_y_data kp (loc_of_last_timestamp_before_zero st) = Ok l →
  transition x_y_data kp st time_stamp = Ok (transition_on kp time_stamp a b l st).
Proof.
  intros Ha Hb Hl. destruct st as [counters ds loc counter]; simpl in *.
  unfold transition, transition_on, branch_of,
    cond_both_positive, cond_zero_then_positive, cond_both_zero,
    cond_positive_then_zero, and_.
  rewrite Ha, Hb, Hl; simpl.
  destruct (gt0 a), (eq0 a), (gt0 b), (eq0 b); simpl; reflexivity.
Qed.

Lemma gap_state_before_succ (c : nat → cell Z) (i : nat) :
  gap_state_before c (i + 1) =
  match branch_of (c i) (c (i + 1)) with
  | Some ZeroThenPositive => ((gap_state_before c i).1, 0)
  | Some BothZero => ((gap_state_before c i).1, (gap_state_before c i).2 + 1)
  | Some PositiveThenZero => (i, 1)
  | Some BothPositive | None => gap_state_before c i
  end.
Proof.
  replace (gap_state_before c (i + 1)) with (gap_state_before c (S i))
    by (f_equal; lia).
  reflexivity.
Qed.

Lemma gap_state_before_loc (c : nat → cell Z) (i : nat) :
  (gap_state_before c i).1 ≤ i.
Proof.
  induction i as [|i IH]; simpl; [lia|].
  destruct (branch_of (c i) (c (i + 1))) as [[]|]; simpl; lia.
Qed.

Section Channel.

Variable x_y_data : DataFrame Z.
Variable T : nat.
Variable kp : string.
Hypothesis Hindex : index x_y_data = range T.
Hypothesis Hkp : kp ∈ columns x_y_data.

Local Abbreviation c := (channel_cells x_y_data kp).

Lemma scan_inv_enter (E : locals) :
  scan_inv x_y_data kp E (enter_channel kp E) 0.
Proof.
  split; try done.
  - intros kp' t. rewrite decide_False; [done|lia].
  - intros kp' t. unfold enter_channel; cbn [counter_of_all_zeros_in_a_row_for_all_kps].
    destruct (decide (kp' = kp)) as [->|Hne].
    + rewrite lookup_total_insert_eq. rewrite decide_False; [done|lia].
    + by rewrite lookup_total_insert_ne.
Qed.

Lemma scan_inv_step (E st : locals) (i : nat) :
  kp ∈ columns (deltas E) → i ∈ index (deltas E) →
  scan_inv x_y_data kp E st i →
  scan_inv x_y_data kp E
    (transition_on kp i (c i) (c (i + 1))
       (c (loc_of_last_timestamp_before_zero st)) st) (S i).
Proof.
  intros HkpE HiE [Hloc Hcnt Hcols Hidx Hcells Hcounters].
  destruct st as [counters ds loc counter]; simpl in *.
  assert (Hshape : ∀ v, columns (at_set ds i kp v) = columns (deltas E)
                        ∧ index (at_set ds i kp v) = index (deltas E)).
  { intros v. rewrite <- Hcols, <- Hidx. apply at_set_shape; congruence. }
  assert (Hset : ∀ v kp' t,
    assigned_delta c i = Some v →
    cell_at (at_set ds i kp v) kp' t =
    if decide (kp' = kp ∧ t < S i)
    then default (cell_at (deltas E) kp' t) (assigned_delta c t)
    else cell_at (deltas E) kp' t).
  { intros v kp' t Hv. rewrite cell_at_at_set, Hcells.
    destruct (decide (kp = kp' ∧ i = t)) as [[<- <-]|Hne].
    - rewrite decide_True by (split; [done|lia]). by rewrite Hv.
    - destruct (decide (kp' = kp ∧ t < i)) as [[-> Hlt]|Hn].
      + by rewrite decide_True by (split; [done|lia]).
      + rewrite decide_False; [done|]. intros [-> Hlt].
        destruct (decide (t = i)) as [->|]; [tauto|]. apply Hn. split; [done|lia]. }
  assert (Hkeep : ∀ kp' t,
    recorded_zero_run c i = None →
    (counters !!! kp') !! t =
    if decide (kp' = kp)
    then (if decide (t < S i) then recorded_zero_run c t else None)
    else (counter_of_all_zeros_in_a_row_for_all_kps E !!! kp') !! t).
  { intros kp' t Hnone. rewrite Hcounters.
    destruct (decide (kp' = kp)); [|done].
    destruct (decide (t < i)); [by rewrite decide_True by lia|].
    destruct (decide (t = i)) as [->|].
    - by rewrite decide_True by lia.
    - by rewrite decide_False by lia. }
  assert (Hgap : gap_state_before c (S i) =
    match branch_of (c i) (c (i + 1)) with
    | Some ZeroThenPositive => (loc, 0)
    | Some BothZero => (loc, counter + 1)
    | Some PositiveThenZero => (i, 1)
    | Some BothPositive | None => (loc, counter)
    end).
  { simpl. rewrite Hloc, Hcnt.
    destruct (branch_of (c i) (c (i + 1))) as [[]|]; try done.
    all: by destruct (gap_state_before c i). }
  unfold transition_on.
  destruct (branch_of (c i) (c (i + 1))) as [[]|] eqn:Hb;
    (split; rewrite ?Hgap;
     cbn [loc_of_last_timestamp_before_zero counter_of_zeros_in_a_row deltas
          counter_of_all_zeros_in_a_row_for_all_kps fst snd];
     try done; try apply Hshape).
  - intros. apply Hset. unfold assigned_delta. by rewrite Hb.
  - intros. apply Hkeep. unfold recorded_zero_run. by rewrite Hb.
  - intros. apply Hset. unfold assigned_delta. by rewrite Hb, Hloc.
  - intros kp' t. destruct (decide (kp' = kp)) as [->|Hne].
    + rewrite lookup_total_insert_eq.
      destruct (decide (t = i)) as [->|Hti].
      * rewrite lookup_insert_eq, decide_True by lia.
        unfold recorded_zero_run. by rewrite Hb, Hcnt.
      * rewrite lookup_insert_ne by done.
        specialize (Hcounters kp t). rewrite decide_True in Hcounters by done.
        rewrite Hcounters.
        destruct (decide (t < i)); [by rewrite decide_True by lia|].
        by rewrite decide_False by lia.
    + rewrite lookup_total_insert_ne by done.
      specialize (Hcounters kp' t). by rewrite decide_False in Hcounters by done.
  - intros. apply Hset. unfold assigned_delta. by rewrite Hb.
  - intros. apply Hkeep. unfold recorded_zero_run. by rewrite Hb.
  - intros. apply Hset. unfold assigned_delta. by rewrite Hb.
  - intros. apply Hkeep. unfold recorded_zero_run. by rewrite Hb.
  - intros kp' t. rewrite Hcells.
    destruct (decide (kp' = kp ∧ t < i)) as [[-> Hlt]|Hn].
    + by rewrite decide_True by (split; [done|lia]).
    + destruct (decide (kp' = kp ∧ t < S i)) as [[-> Hlt]|]; [|done].
      assert (t = i) as ->.
      { destruct (decide (t = i)); [done|]. exfalso; apply Hn; split; [done|lia]. }
      unfold assigned_delta. by rewrite Hb.
  - intros. apply Hkeep. unfold recorded_zero_run. by rewrite Hb.
Qed.

(** The first [i] transitions of a channel never raise, and leave the
    locals described by [scan_inv]. *)
Lemma scan_prefix (E : locals) (i : nat) :
  kp ∈ columns (deltas E) → index (deltas E) = range (T - 1) → i ≤ T - 1 →
  ∃ st, for_each (range i) (transition x_y_data kp) (enter_channel kp E) = Ok st
        ∧ scan_inv x_y_data kp E st i.
Proof.
  intros HkpE HidxE. induction i as [|i IH]; intros Hi.
  - exists (enter_channel kp E). split; [done|apply scan_inv_enter].
  - destruct IH as (st & Hrun & Hinv); [lia|].
    exists (transition_on kp i (c i) (c (i + 1))
              (c (loc_of_last_timestamp_before_zero st)) st).
    split.
    + rewrite range_S, for_each_app, Hrun. simpl.
      rewrite (transition_reads x_y_data kp st i (c i) (c (i + 1))
                 (c (loc_of_last_timestamp_before_zero st))); [done|..].
      * apply (item_default_index _ T); [done..|lia].
      * apply (item_default_index _ T); [done..|lia].
      * apply (item_default_index _ T); [done..|].
        rewrite (inv_loc _ _ _ _ _ Hinv).
        pose proof (gap_state_before_loc c i). lia.
    + apply scan_inv_step; [done| |done].
      rewrite HidxE. apply elem_of_range. lia.
Qed.

End Channel.

(** ** The whole table *)

Section Table.

Variable x_y_data : DataFrame Z.
Variable T : nat.
Hypothesis Hindex : index x_y_data = range T.

Lemma len_default_index : len x_y_data = T.
Proof. unfold len. rewrite Hindex. apply length_seq. Qed.

Lemma scan_channel_spec (E : locals) (kp : string) :
  kp ∈ columns x_y_data →
  frame_shape x_y_data T E → cells_sound x_y_data E →
  ∃ st, scan_channel x_y_data E kp = Ok st
        ∧ frame_shape x_y_data T st ∧ cells_sound x_y_data st
        ∧ channel_done x_y_data T st kp
        ∧ ∀ kp', kp' ≠ kp → same_channel E st kp'.
Proof.
  intros Hkp [Hcols Hidx] Hsound.
  destruct (scan_prefix x_y_data T kp Hindex Hkp E (T - 1)) as (st & Hrun & Hinv);
    [by rewrite Hcols|done|lia|].
  exists st. unfold scan_channel. rewrite len_default_index.
  destruct Hinv as [_ _ Hc Hi Hcells Hcounters].
  split; [done|]. split; [split; congruence|]. repeat split.
  - intros kp' t. rewrite Hcells.
    destruct (decide (kp' = kp ∧ t < T - 1)) as [[-> Hlt]|]; [|apply Hsound].
    specialize (Hsound kp t). unfold final_cell in *.
    destruct (assigned_delta (channel_cells x_y_data kp) t); simpl in *;
      [by right|done].
  - intros t Ht. rewrite Hcells, decide_True by done.
    unfold final_cell.
    destruct (assigned_delta (channel_cells x_y_data kp) t) eqn:Ha; simpl; [done|].
    destruct (Hsound kp t) as [H|H]; [done|].
    rewrite H. unfold final_cell. by rewrite Ha.
  - intros t. by rewrite Hcounters, decide_True.
  - intros t. rewrite Hcells, decide_False; [done|tauto].
  - intros t. by rewrite Hcounters, decide_False.
Qed.

Lemma scan_channels_spec (ks : list string) :
  (∀ kp, kp ∈ ks → kp ∈ columns x_y_data) →
  ∀ E, frame_shape x_y_data T E → cells_sound x_y_data E →
  ∃ st, for_each ks (scan_channel x_y_data) E = Ok st
        ∧ frame_shape x_y_data T st ∧ cells_sound x_y_data st
        ∧ (∀ kp, kp ∈ ks → channel_done x_y_data T st kp)
        ∧ (∀ kp, kp ∉ ks → same_channel E st kp).
Proof.
  induction ks as [|k ks IH]; intros Hks E Hshape Hsound.
  - exists E. split; [done|]. split; [done|]. split; [done|]. split.
    + intros kp Hin. by apply elem_of_nil in Hin.
    + intros kp _. by split.
  - destruct (scan_channel_spec E k) as (E' & Hrun & Hshape' & Hsound' & Hdone & Hsame);
      [apply Hks; left|done..|].
    destruct (IH (λ kp H, Hks kp (list_elem_of_further _ _ _ H)) E' Hshape' Hsound')
      as (st & Hrest & Hshape'' & Hsound'' & Hdone' & Hsame').
    exists st. simpl. rewrite Hrun. simpl.
    split; [done|]. split; [done|]. split; [done|]. split.
    + intros kp Hin. destruct (decide (kp ∈ ks)) as [Hin'|Hnin]; [by apply Hdone'|].
      apply elem_of_cons in Hin as [->|]; [|done].
      destruct (Hsame' k Hnin) as [Hcells Hcounters].
      destruct Hdone as [Hd1 Hd2].
      split; intros t.
      * intros Ht. rewrite Hcells. by apply Hd1.
      * rewrite Hcounters. apply Hd2.
    + intros kp Hnin. apply not_elem_of_cons in Hnin as [Hne Hnin].
      destruct (Hsame' kp Hnin) as [Hcells Hcounters].
      destruct (Hsame kp Hne) as [Hcells' Hcounters'].
      split; intros t; [rewrite Hcells|rewrite Hcounters]; done.
Qed.

(** On a table with the default row labels, at least one row and at
    least one channel, the function reaches its [return], the delta
    frame has the channels of the input and the rows [0 .. T-2], and
    every channel holds its closed form. *)
Lemma locals_at_return_spec :
  T ≠ 0 → columns x_y_data ≠ [] →
  ∃ L, locals_at_return x_y_data = Ok L
       ∧ frame_shape x_y_data T L
       ∧ ∀ kp, kp ∈ columns x_y_data → channel_done x_y_data T L kp.
Proof.
  intros HT Hcols.
  destruct (scan_channels_spec (columns x_y_data) (λ _ H, H)
              (initial_locals x_y_data)) as (L & Hrun & Hshape & _ & Hdone & _).
  - split; simpl; [done|]. by rewrite len_default_index.
  - intros kp t. left. apply cell_at_new_frame.
  - exists L. unfold locals_at_return, frame_empty.
    rewrite Hindex. unfold range. rewrite length_seq.
    destruct T; [done|]. destruct (columns x_y_data); [done|]. simpl. done.
Qed.

End Table.

(** ** Tables of numbers *)

Lemma all_values_cell p x_y_data kp t :
  all_values p x_y_data = true → kp ∈ columns x_y_data → t ∈ index x_y_data →
  cell_at x_y_data kp t = Some (value x_y_data kp t)
  ∧ p (value x_y_data kp t) = true.
Proof.
  unfold all_values, value. rewrite forallb_forall. intros Hall Hkp Ht.
  apply list_elem_of_In in Hkp, Ht.
  specialize (Hall kp Hkp). rewrite forallb_forall in Hall.
  specialize (Hall t Ht). by destruct (cell_at x_y_data kp t).
Qed.

Lemma nonnegative_numeric x_y_data :
  nonnegative_table x_y_data = true → numeric_table x_y_data = true.
Proof.
  unfold nonnegative_table, numeric_table, all_values.
  rewrite !forallb_forall. intros Hall kp Hkp. specialize (Hall kp Hkp).
  rewrite forallb_forall in *. intros t Ht. specialize (Hall t Ht).
  by destruct (cell_at x_y_data kp t).
Qed.

(** The branch selected by two numbers. *)
Lemma branch_of_numbers (a b : Z) :
  branch_of (Some a) (Some b) =
  if (0 <? a)%Z && (0 <? b)%Z then Some BothPositive
  else if (a =? 0)%Z && (0 <? b)%Z then Some ZeroThenPositive
  else if (a =? 0)%Z && (b =? 0)%Z then Some BothZero
  else if (0 <? a)%Z && (b =? 0)%Z then Some PositiveThenZero
  else None.
Proof. reflexivity. Qed.

Lemma branch_of_cases (a b : Z) :
  ((0 < a)%Z ∧ (0 < b)%Z ∧ branch_of (Some a) (Some b) = Some BothPositive)
  ∨ (a = 0%Z ∧ (0 < b)%Z ∧ branch_of (Some a) (Some b) = Some ZeroThenPositive)
  ∨ (a = 0%Z ∧ b = 0%Z ∧ branch_of (Some a) (Some b) = Some BothZero)
  ∨ ((0 < a)%Z ∧ b = 0%Z ∧ branch_of (Some a) (Some b) = Some PositiveThenZero)
  ∨ (((a < 0)%Z ∨ (b < 0)%Z) ∧ branch_of (Some a) (Some b) = None).
Proof.
  rewrite branch_of_numbers.
  destruct (Z.ltb_spec 0 a), (Z.eqb_spec a 0), (Z.ltb_spec 0 b), (Z.eqb_spec b 0);
    simpl; try lia; try tauto.
  all: right; right; right; right; split; [lia|done].
Qed.

(** ** The four-branch rule *)

(** C1. On a table of nonnegative numbers with the default row labels,
    every channel is scanned by the four-branch rule: the state starts as
    (last known good index 0, zero run 0); two positive neighbours give
    their difference; a zero followed by a positive value gives the
    difference to the value at the last known good index, records the
    current zero run as the diagnostic of that transition and resets it;
    two zeros give 0 and lengthen the run; a positive value followed by a
    zero gives 0, makes the current index the last known good one and
    sets the run to 1. *)
Theorem delta_scan_follows_four_branch_rule
    (x_y_data : DataFrame Z) (T : nat) (kp : string) :
  index x_y_data = range T →
  nonnegative_table x_y_data = true →
  kp ∈ columns x_y_data →
  follows_four_branch_rule x_y_data T kp.
Proof.
  intros Hindex Hnonneg Hkp.
  assert (Hcell : ∀ t, t < T →
            channel_cells x_y_data kp t = Some (value x_y_data kp t)
            ∧ (0 ≤ value x_y_data kp t)%Z).
  { intros t Ht.
    destruct (all_values_cell _ x_y_data kp t Hnonneg Hkp) as [Hc Hp].
    - rewrite Hindex. by apply elem_of_range.
    - split; [done|]. by apply Z.leb_le. }
  exists (λ i, mkGapState (gap_state_before (channel_cells x_y_data kp) i).1
                          (gap_state_before (channel_cells x_y_data kp) i).2).
  split; [done|]. split.
  - intros E i [Hcols Hidx] Hi.
    destruct (scan_prefix x_y_data T kp Hindex Hkp E i) as (st & Hrun & Hinv);
      [by rewrite Hcols|done|lia|].
    exists st. split; [done|]. unfold gap_state_of.
    by rewrite (inv_loc _ _ _ _ _ Hinv), (inv_counter _ _ _ _ _ Hinv).
  - intros i Hi.
    destruct (locals_at_return_spec x_y_data T Hindex) as (L & Hret & _ & Hdone).
    { lia. } { intros Hnil. rewrite Hnil in Hkp. by apply elem_of_nil in Hkp. }
    destruct (Hdone kp Hkp) as [Hcells Hcounters].
    specialize (Hcells i ltac:(lia)). specialize (Hcounters i).
    rewrite decide_True in Hcounters by lia.
    unfold final_cell, assigned_delta in Hcells.
    unfold recorded_zero_run in Hcounters.
    pose proof (gap_state_before_loc (channel_cells x_y_data kp) i) as Hloc.
    destruct (Hcell i ltac:(lia)) as [Hci _].
    destruct (Hcell (i + 1) ltac:(lia)) as [Hci1 _].
    destruct (Hcell (gap_state_before (channel_cells x_y_data kp) i).1 ltac:(lia))
      as [Hcl _].
    rewrite Hci, Hci1, ?Hcl in Hcells. rewrite Hci, Hci1 in Hcounters.
    pose proof (gap_state_before_succ (channel_cells x_y_data kp) i) as Hgap.
    rewrite Hci, Hci1 in Hgap.
    exists L. cbv beta. rewrite Hcounters, Hgap.
    destruct (branch_of_cases (value x_y_data kp i) (value x_y_data kp (i + 1)))
      as [(Ha & Hb & Hbr)|[(Ha & Hb & Hbr)|[(Ha & Hb & Hbr)|[(Ha & Hb & Hbr)|[Hneg _]]]]];
      rewrite ?Hbr in *; simpl in *.
    + eexists. split; [done|]. split; [|done].
      destruct (gap_state_before (channel_cells x_y_data kp) i).
      apply rule_both_positive; lia.
    + eexists. split; [done|]. split; [|done].
      by apply (rule_zero_then_positive _ _ (mkGapState _ _)); [|lia].
    + exists 0%Z. split; [done|]. split; [|done].
      by apply (rule_both_zero _ _ (mkGapState _ _)).
    + exists 0%Z. split; [done|]. split; [|done].
      by apply (rule_positive_then_zero _ _ (mkGapState _ _)); [lia|].
    + destruct (Hcell i ltac:(lia)) as [_ ?].
      destruct (Hcell (i + 1) ltac:(lia)) as [_ ?]. lia.
Qed.

Lemma delta_scan_follows_four_branch_rule_witness :
  index scenario_table = range 6
  ∧ nonnegative_table scenario_table = true
  ∧ "kp" ∈ columns scenario_table
  ∧ follows_four_branch_rule scenario_table 6 "kp".
Proof.
  assert (H1 : index scenario_table = range 6) by reflexivity.
  assert (H2 : nonnegative_table scenario_table = true) by reflexivity.
  assert (H3 : "kp" ∈ columns scenario_table) by constructor.
  exact (conj H1 (conj H2 (conj H3
    (delta_scan_follows_four_branch_rule scenario_table 6 "kp" H1 H2 H3)))).
Defined.

(** C2 (as the code behaves). For the single-channel table
    [0, 5, 5, 0, 0, 9] the function returns the five-row delta table
    [5, 0, 0, 0, 4]: transition 0 bridges against the value 0 at index 0,
    and transition 4 bridges against the value 5 at index 2. *)
Theorem end_to_end_scenario_deltas :
  (λ D, (columns D, index D, column_values D "kp"))
    <$> get_table_of_deltas_between_time_stamps_in_all_kps scenario_table
  = Ok (["kp"], [0; 1; 2; 3; 4],
        [Some 5; Some 0; Some 0; Some 0; Some 4]%Z).
Proof. vm_compute. reflexivity. Qed.

(** C2 (as claimed) fails: the returned column is not [0, 0, -5, 0, 9]. *)
Lemma end_to_end_scenario_not_as_claimed :
  (λ D, column_values D "kp")
    <$> get_table_of_deltas_between_time_stamps_in_all_kps scenario_table
  ≠ Ok [Some 0; Some 0; Some (-5); Some 0; Some 9]%Z.
Proof. vm_compute. discriminate. Qed.

(** C7. For the single-channel table [3, 0, 0, 0, 7] the deltas are
    [0, 0, 0, 4], and the zero-run length recorded for the bridging
    transition, index 3, is 3. *)
Theorem zero_run_counting :
  (λ D, column_values D "kp")
    <$> get_table_of_deltas_between_time_stamps_in_all_kps zero_run_table
  = Ok [Some 0; Some 0; Some 0; Some 4]%Z
  ∧ (λ L, (counter_of_all_zeros_in_a_row_for_all_kps L !!! "kp") !! 3)
      <$> locals_at_return zero_run_table
    = Ok (Some 3).
Proof. split; vm_compute; reflexivity. Qed.

(** ** Which exceptions the function raises *)

Lemma item_raises {A : Type} (df : DataFrame A) kp t e :
  item df kp t = Raise e → is_key_error e.
Proof.
  unfold item, getitem, series_getitem.
  repeat (case_decide; simpl); intros; simplify_eq; done.
Qed.

Lemma for_each_raises {A S : Type} (P : exception → Prop) (l : list A)
    (body : S → A → result S) (st : S) (e : exception) :
  (∀ st a e, body st a = Raise e → P e) →
  for_each l body st = Raise e → P e.
Proof.
  intros Hbody. revert st. induction l as [|a l IH]; intros st; simpl; [done|].
  destruct (body st a) as [st'|e'] eqn:Hb; simpl.
  - apply IH.
  - intros [= <-]. by eapply Hbody.
Qed.

Lemma transition_raises x_y_data kp st t e :
  transition x_y_data kp st t = Raise e → is_key_error e.
Proof.
  destruct st as [counters ds loc counter].
  unfold transition, cond_both_positive, cond_zero_then_positive,
    cond_both_zero, cond_positive_then_zero, and_.
  destruct (item x_y_data kp t) as [a|ea] eqn:Ha;
    [|simpl; intros [= <-]; by eapply item_raises].
  destruct (item x_y_data kp (t + 1)) as [b|eb] eqn:Hb;
    destruct (item x_y_data kp loc) as [l|el] eqn:Hl; simpl;
    destruct (gt0 a), (eq0 a); simpl; try destruct (gt0 b); try destruct (eq0 b);
    simpl; intros; simplify_eq; try done; by eapply item_raises.
Qed.

Lemma locals_at_return_raises x_y_data e :
  locals_at_return x_y_data = Raise e →
  (frame_empty x_y_data = true ∧ e = ValueError "The input DataFrame is empty.")
  ∨ (frame_empty x_y_data = false ∧ is_key_error e).
Proof.
  unfold locals_at_return. destruct (frame_empty x_y_data).
  - intros [= <-]. by left.
  - intros Hrun. right. split; [done|].
    eapply (for_each_raises is_key_error); [|exact Hrun].
    intros st kp e'. unfold scan_channel.
    apply for_each_raises. intros ???. apply transition_raises.
Qed.

Lemma frame_empty_spec {A : Type} (df : DataFrame A) :
  frame_empty df = true ↔ index df = [] ∨ columns df = [].
Proof.
  unfold frame_empty. rewrite orb_true_iff, !Nat.eqb_eq.
  by rewrite !length_zero_iff_nil.
Qed.

(** C6 (as the code behaves). The function raises its [ValueError]
    exactly when the table has no row or no channel, and then there is no
    output table; a table with at least one row and at least one channel
    never raises it. *)
Theorem empty_input_error (x_y_data : DataFrame Z) :
  ((∃ msg, get_table_of_deltas_between_time_stamps_in_all_kps x_y_data
           = Raise (ValueError msg))
   ↔ index x_y_data = [] ∨ columns x_y_data = [])
  ∧ (get_table_of_deltas_between_time_stamps_in_all_kps x_y_data
     = Raise (ValueError "The input DataFrame is empty.")
     ↔ index x_y_data = [] ∨ columns x_y_data = []).
Proof.
  assert (Hempty : index x_y_data = [] ∨ columns x_y_data = [] →
    get_table_of_deltas_between_time_stamps_in_all_kps x_y_data
    = Raise (ValueError "The input DataFrame is empty.")).
  { intros H. apply frame_empty_spec in H.
    unfold get_table_of_deltas_between_time_stamps_in_all_kps, locals_at_return.
    by rewrite H. }
  assert (Hraise : ∀ msg,
    get_table_of_deltas_between_time_stamps_in_all_kps x_y_data
    = Raise (ValueError msg) → index x_y_data = [] ∨ columns x_y_data = []).
  { intros msg. unfold get_table_of_deltas_between_time_stamps_in_all_kps.
    destruct (locals_at_return x_y_data) as [L|e] eqn:Hret; simpl; [done|].
    intros [= ->].
    destruct (locals_at_return_raises _ _ Hret) as [[H _]|[_ H]]; [|done].
    by apply frame_empty_spec. }
  split; split; eauto. intros [msg H]. eauto.
Qed.

(** C6 (as claimed) fails: a table with a row and no channel raises the
    error although it has a row. *)
Lemma empty_input_error_with_a_row :
  index one_row_no_channel ≠ []
  ∧ get_table_of_deltas_between_time_stamps_in_all_kps one_row_no_channel
    = Raise (ValueError "The input DataFrame is empty.").
Proof. split; [discriminate|reflexivity]. Qed.

Lemma scan_channels_no_transition (x_y_data : DataFrame Z) (ks : list string)
    (st : locals) :
  len x_y_data - 1 = 0 →
  ∃ st', for_each ks (scan_channel x_y_data) st = Ok st'
         ∧ deltas st' = deltas st.
Proof.
  intros Hlen. revert st. induction ks as [|k ks IH]; intros st; simpl.
  - by exists st.
  - assert (scan_channel x_y_data st k = Ok (enter_channel k st)) as ->.
    { unfold scan_channel. by rewrite Hlen. }
    simpl. destruct (IH (enter_channel k st)) as (st' & Hrun & Hd).
    exists st'. by split.
Qed.

(** C9 (as the code behaves). On a table with exactly one row and at least
    one channel the function raises nothing and returns a delta table
    with no row, no cell and the channels of the input. *)
Theorem single_row_table (x_y_data : DataFrame Z) (r : nat) :
  index x_y_data = [r] → columns x_y_data ≠ [] →
  get_table_of_deltas_between_time_stamps_in_all_kps x_y_data
  = Ok (new_frame (columns x_y_data) []).
Proof.
  intros Hidx Hcols.
  unfold get_table_of_deltas_between_time_stamps_in_all_kps, locals_at_return.
  assert (Hne : frame_empty x_y_data = false).
  { destruct (frame_empty x_y_data) eqn:He; [|done].
    apply frame_empty_spec in He as [He|He]; [by rewrite Hidx in He|done]. }
  rewrite Hne.
  destruct (scan_channels_no_transition x_y_data (columns x_y_data)
              (initial_locals x_y_data)) as (st & -> & Hd).
  { unfold len. by rewrite Hidx. }
  simpl. rewrite Hd. unfold initial_locals, len. rewrite Hidx. reflexivity.
Qed.

Lemma single_row_table_witness :
  index one_row_table = [0] ∧ columns one_row_table ≠ []
  ∧ get_table_of_deltas_between_time_stamps_in_all_kps one_row_table
    = Ok (new_frame (columns one_row_table) []).
Proof.
  assert (H1 : index one_row_table = [0]) by reflexivity.
  assert (H2 : columns one_row_table ≠ []) by discriminate.
  exact (conj H1 (conj H2 (single_row_table one_row_table 0 H1 H2))).
Defined.

(** C9 (as claimed) fails: a table with exactly one row and no channel
    raises, so no delta table is returned for it. *)
Lemma single_row_table_may_raise :
  index one_row_no_channel = [0]
  ∧ ¬ ∃ D, get_table_of_deltas_between_time_stamps_in_all_kps one_row_no_channel
           = Ok D.
Proof. split; [reflexivity|]. intros [D H]. discriminate H. Qed.

(** ** Coverage of the branch conditions *)

Lemma conditions_reads (x_y_data : DataFrame Z) kp i (a b : cell Z) :
  item x_y_data kp i = Ok a → item x_y_data kp (i + 1) = Ok b →
  conditions x_y_data kp i
  = Ok <$> [gt0 a && gt0 b; eq0 a && gt0 b; eq0 a && eq0 b; gt0 a && eq0 b].
Proof.
  intros Ha Hb.
  unfold conditions, cond_both_positive, cond_zero_then_positive,
    cond_both_zero, cond_positive_then_zero, and_.
  rewrite Ha, Hb. simpl. by destruct (gt0 a), (eq0 a).
Qed.

(** C10. On a table of numbers with the default row labels, take a
    transition [i] of a channel. The four conditions evaluate without
    error. If both values of the transition are nonnegative, exactly one
    condition holds and the cell of the returned delta table holds a
    number. If one of the two values is negative, no condition holds and
    the cell is left unassigned (NaN). *)
Theorem branch_conditions_coverage
    (x_y_data : DataFrame Z) (T : nat) (kp : string) (i : nat) :
  index x_y_data = range T →
  numeric_table x_y_data = true →
  kp ∈ columns x_y_data →
  i + 1 < T →
  ∃ D bs,
    get_table_of_deltas_between_time_stamps_in_all_kps x_y_data = Ok D
    ∧ conditions x_y_data kp i = Ok <$> bs
    ∧ ((0 ≤ value x_y_data kp i)%Z ∧ (0 ≤ value x_y_data kp (i + 1))%Z →
       holding bs = 1 ∧ ∃ d, cell_at D kp i = Some d)
    ∧ ((value x_y_data kp i < 0)%Z ∨ (value x_y_data kp (i + 1) < 0)%Z →
       holding bs = 0 ∧ cell_at D kp i = None).
Proof.
  intros Hindex Hnum Hkp Hi.
  assert (Hcell : ∀ t, t < T →
            channel_cells x_y_data kp t = Some (value x_y_data kp t)).
  { intros t Ht. apply (all_values_cell _ x_y_data kp t Hnum Hkp).
    rewrite Hindex. by apply elem_of_range. }
  destruct (locals_at_return_spec x_y_data T Hindex) as (L & Hret & _ & Hdone).
  { lia. } { intros Hnil. rewrite Hnil in Hkp. by apply elem_of_nil in Hkp. }
  destruct (Hdone kp Hkp) as [Hcells _].
  specialize (Hcells i ltac:(lia)).
  unfold final_cell, assigned_delta in Hcells.
  pose proof (gap_state_before_loc (channel_cells x_y_data kp) i) as Hloc.
  rewrite (Hcell i), (Hcell (i + 1)), (Hcell (gap_state_before _ i).1) in Hcells
    by lia.
  set (a := value x_y_data kp i) in *.
  set (b := value x_y_data kp (i + 1)) in *.
  exists (deltas L), [gt0 (Some a) && gt0 (Some b); eq0 (Some a) && gt0 (Some b);
                      eq0 (Some a) && eq0 (Some b); gt0 (Some a) && eq0 (Some b)].
  split; [unfold get_table_of_deltas_between_time_stamps_in_all_kps;
          by rewrite Hret|].
  split.
  { apply conditions_reads.
    - rewrite (item_default_index _ T) by (done || lia). by rewrite Hcell by lia.
    - rewrite (item_default_index _ T) by (done || lia). by rewrite Hcell by lia. }
  unfold holding. simpl gt0. simpl eq0.
  destruct (branch_of_cases a b)
    as [(Ha & Hb & Hbr)|[(Ha & Hb & Hbr)|[(Ha & Hb & Hbr)|[(Ha & Hb & Hbr)|[Hneg Hbr]]]]];
    rewrite Hbr in Hcells; simpl in Hcells.
  - split; [|lia]. intros _. split; [|eauto].
    destruct (Z.ltb_spec 0 a), (Z.eqb_spec a 0), (Z.ltb_spec 0 b), (Z.eqb_spec b 0);
      simpl; done || lia.
  - split; [|lia]. intros _. split; [|eauto].
    destruct (Z.ltb_spec 0 a), (Z.eqb_spec a 0), (Z.ltb_spec 0 b), (Z.eqb_spec b 0);
      simpl; done || lia.
  - split; [|lia]. intros _. split; [|eauto].
    destruct (Z.ltb_spec 0 a), (Z.eqb_spec a 0), (Z.ltb_spec 0 b), (Z.eqb_spec b 0);
      simpl; done || lia.
  - split; [|lia]. intros _. split; [|eauto].
    destruct (Z.ltb_spec 0 a), (Z.eqb_spec a 0), (Z.ltb_spec 0 b), (Z.eqb_spec b 0);
      simpl; done || lia.
  - split; [lia|]. intros _. split; [|done].
    destruct (Z.ltb_spec 0 a), (Z.eqb_spec a 0), (Z.ltb_spec 0 b), (Z.eqb_spec b 0);
      simpl; done || lia.
Qed.

Lemma branch_conditions_coverage_witness :
  index mixed_table = range 4
  ∧ numeric_table mixed_table = true
  ∧ "a" ∈ columns mixed_table
  ∧ 0 + 1 < 4
  ∧ ∃ D bs,
      get_table_of_deltas_between_time_stamps_in_all_kps mixed_table = Ok D
      ∧ conditions mixed_table "a" 0 = Ok <$> bs
      ∧ ((0 ≤ value mixed_table "a" 0)%Z ∧ (0 ≤ value mixed_table "a" (0 + 1))%Z →
         holding bs = 1 ∧ ∃ d, cell_at D "a" 0 = Some d)
      ∧ ((value mixed_table "a" 0 < 0)%Z ∨ (value mixed_table "a" (0 + 1) < 0)%Z →
         holding bs = 0 ∧ cell_at D "a" 0 = None).
Proof.
  assert (H1 : index mixed_table = range 4) by reflexivity.
  assert (H2 : numeric_table mixed_table = true) by reflexivity.
  assert (H3 : "a" ∈ columns mixed_table) by constructor.
  assert (H4 : 0 + 1 < 4) by lia.
  exact (conj H1 (conj H2 (conj H3 (conj H4
    (branch_conditions_coverage mixed_table 4 "a" 0 H1 H2 H3 H4))))).
Defined.

(** * The threshold segmenter *)

(** ** Sums and slices *)

Lemma foldl_add_foldr (l : list Z) (a : Z) :
  foldl Z.add a l = (a + foldr Z.add 0 l)%Z.
Proof.
  revert a. induction l as [|x l IH]; intros a; simpl; [lia|].
  rewrite IH. lia.
Qed.

Lemma sum_ints_foldr (l : list Z) : sum_ints l = foldr Z.add 0%Z l.
Proof. unfold sum_ints. rewrite foldl_add_foldr. lia. Qed.

Lemma take_drop_lookups {A : Type} (l : list A) (i j : nat) :
  take j (drop i l) = omap (λ k, l !! k) (seq i j).
Proof.
  revert i. induction j as [|j IH]; intros i; simpl; [by rewrite take_0|].
  destruct (l !! i) as [x|] eqn:Hx.
  - rewrite (drop_S _ _ _ Hx). simpl. by rewrite IH.
  - rewrite <- IH. apply lookup_ge_None in Hx.
    rewrite !drop_ge by lia. by rewrite !take_nil.
Qed.

Lemma slice_window {A : Type} (l : list A) (i j : nat) :
  slice l i (i + j) = omap (λ k, l !! k) (seq i j).
Proof.
  unfold slice. replace (i + j - i) with j by lia. apply take_drop_lookups.
Qed.

Lemma sum_slice_window (ref : list Z) (i j : nat) :
  sum_ints (slice ref i (i + j)) = clipped_window_sum ref i j.
Proof. by rewrite sum_ints_foldr, slice_window. Qed.

(** ** The loops of the segmenter as a comprehension *)

Lemma foldl_append_if {A B : Type} (q : A → bool) (p : A → B) (l : list A)
    (acc : list B) :
  foldl (λ acc a, if q a then acc ++ [p a] else acc) acc l
  = acc ++ (a ← l; if q a then [p a] else []).
Proof.
  revert acc. induction l as [|a l IH]; intros acc; simpl.
  - by rewrite app_nil_r.
  - rewrite IH. destruct (q a); simpl; [|done]. by rewrite <- app_assoc.
Qed.

Lemma foldl_append_bind {A B : Type} (step : list B → A → list B)
    (f : A → list B) (l : list A) (acc : list B) :
  (∀ acc a, step acc a = acc ++ f a) →
  foldl step acc l = acc ++ (l ≫= f).
Proof.
  intros Hstep. revert acc. induction l as [|a l IH]; intros acc; simpl.
  - by rewrite app_nil_r.
  - by rewrite IH, Hstep, <- app_assoc.
Qed.

(** The segmenter computes the reference definition. *)
Lemma segmenter_refines (values_x values_y : list Z) (threshold : Z) :
  get_start_to_end_list values_x values_y threshold
  = find_ranges_reference values_x values_y threshold.
Proof.
  unfold get_start_to_end_list, find_ranges_reference, range, W.
  rewrite (foldl_append_bind _
    (λ i, j ← seq 0 30;
          if bool_decide ((threshold < clipped_window_sum values_x i j)%Z
                          ∨ (threshold < clipped_window_sum values_y i j)%Z)
          then [(i, i + j)] else [])); [done|].
  intros acc i.
  rewrite (foldl_append_if
    (λ j, (threshold <? sum_ints (slice values_x i (i + j)))%Z
          || (threshold <? sum_ints (slice values_y i (i + j)))%Z)
    (λ j, (i, i + j))).
  f_equal. apply list_bind_ext; [|done]. intros j.
  rewrite !sum_slice_window.
  destruct (Z.ltb_spec threshold (clipped_window_sum values_x i j)),
           (Z.ltb_spec threshold (clipped_window_sum values_y i j)); simpl.
  - rewrite bool_decide_eq_true_2; [done|by left].
  - rewrite bool_decide_eq_true_2; [done|by left].
  - rewrite bool_decide_eq_true_2; [done|by right].
  - rewrite bool_decide_eq_false_2; [done|lia].
Qed.

(** A pair is produced exactly when it is a qualifying window. *)
Lemma elem_of_segmenter (values_x values_y : list Z) (threshold : Z) (s e : nat) :
  (s, e) ∈ get_start_to_end_list values_x values_y threshold
  ↔ ∃ j, s < length values_x ∧ j < W ∧ e = s + j
         ∧ ((threshold < clipped_window_sum values_x s j)%Z
            ∨ (threshold < clipped_window_sum values_y s j)%Z).
Proof.
  rewrite segmenter_refines. unfold find_ranges_reference.
  rewrite list_elem_of_bind. split.
  - intros (i & Hin & Hi). apply list_elem_of_bind in Hin as (j & Hin & Hj).
    apply elem_of_seq in Hi, Hj. case_bool_decide as Hq.
    + apply list_elem_of_singleton in Hin as [= -> ->]. exists j.
      repeat split; (lia || done).
    + by apply elem_of_nil in Hin.
  - intros (j & Hs & Hj & -> & Hq). exists s. split.
    + apply list_elem_of_bind. exists j. split.
      * rewrite bool_decide_eq_true_2 by done. by apply list_elem_of_singleton.
      * apply elem_of_seq. lia.
    + apply elem_of_seq. lia.
Qed.

Lemma elem_of_if_singleton {A : Type} (b : bool) (p x : A) :
  x ∈ (if b then [p] else []) → b = true ∧ x = p.
Proof.
  destruct b; [|by intros ?%elem_of_nil].
  by intros ->%list_elem_of_singleton.
Qed.

Lemma StronglySorted_seq (i n : nat) : StronglySorted lt (seq i n).
Proof.
  revert i. induction n as [|n IH]; intros i; simpl; constructor; [apply IH|].
  apply Forall_forall. intros k Hk. apply elem_of_seq in Hk. lia.
Qed.

Lemma StronglySorted_bind {A B : Type} (RA : relation A) (R : relation B)
    (f : A → list B) (l : list A) :
  StronglySorted RA l →
  (∀ a, a ∈ l → StronglySorted R (f a)) →
  (∀ a a' x y, RA a a' → x ∈ f a → y ∈ f a' → R x y) →
  StronglySorted R (l ≫= f).
Proof.
  intros Hl Hf Hcross. induction Hl as [|a l Hl IH Hall]; simpl; [constructor|].
  apply StronglySorted_app_2.
  - intros x y Hx Hy. apply list_elem_of_bind in Hy as (a' & Hy & Ha').
    rewrite Forall_forall in Hall. eapply Hcross; [by apply Hall|done..].
  - apply Hf. by left.
  - apply IH. intros a' Ha'. apply Hf. by right.
Qed.

(** The output is strictly ascending by start index, then by end index. *)
Lemma segmenter_sorted (values_x values_y : list Z) (threshold : Z) :
  StronglySorted range_lt (get_start_to_end_list values_x values_y threshold).
Proof.
  rewrite segmenter_refines. unfold find_ranges_reference.
  assert (Hin : ∀ i x,
    x ∈ (j ← seq 0 W;
         if bool_decide ((threshold < clipped_window_sum values_x i j)%Z
                         ∨ (threshold < clipped_window_sum values_y i j)%Z)
         then [(i, i + j)] else []) → x.1 = i).
  { intros i x Hx. apply list_elem_of_bind in Hx as (j & Hx & _).
    case_bool_decide; [|by apply elem_of_nil in Hx].
    by apply list_elem_of_singleton in Hx as ->. }
  apply (StronglySorted_bind lt); [apply StronglySorted_seq| |].
  - intros i _. apply (StronglySorted_bind lt); [apply StronglySorted_seq| |].
    + intros j _. case_bool_decide; repeat constructor.
    + intros j j' x y Hlt Hx Hy.
      apply elem_of_if_singleton in Hx as [_ ->], Hy as [_ ->].
      right. simpl. lia.
  - intros i i' x y Hlt Hx Hy. left.
    apply Hin in Hx, Hy. lia.
Qed.

(** C3. The segmenter computes the reference definition: its result is
    the list obtained by iterating the start index [i] over [[0, N)] and
    the window length [j] over [[0, W)], [W = 30], keeping [(i, i + j)]
    exactly when the clipped sum of [ref_x] or of [ref_y] over the window
    exceeds the threshold; and the result is ascending by [i], then by
    [j]. *)
Theorem segmenter_matches_reference (ref_x ref_y : list Z) (threshold : Z) :
  get_start_to_end_list ref_x ref_y threshold
  = find_ranges_reference ref_x ref_y threshold
  ∧ (∀ i j, i < length ref_x → j < W →
       ((i, i + j) ∈ get_start_to_end_list ref_x ref_y threshold
        ↔ (threshold < clipped_window_sum ref_x i j)%Z
          ∨ (threshold < clipped_window_sum ref_y i j)%Z))
  ∧ (∀ s e, (s, e) ∈ get_start_to_end_list ref_x ref_y threshold →
       ∃ j, s < length ref_x ∧ j < W ∧ e = s + j)
  ∧ StronglySorted range_lt (get_start_to_end_list ref_x ref_y threshold).
Proof.
  split; [apply segmenter_refines|]. split; [|split].
  - intros i j Hi Hj. rewrite elem_of_segmenter. split.
    + intros (j' & _ & _ & He & Hq). by replace j with j' by lia.
    + intros Hq. by exists j.
  - intros s e (j & Hs & Hj & He & _)%elem_of_segmenter. by exists j.
  - apply segmenter_sorted.
Qed.

(** ** Bounds of the produced ranges *)

Lemma clipped_window_sum_0 (ref : list Z) (i : nat) :
  clipped_window_sum ref i 0 = 0%Z.
Proof. reflexivity. Qed.

(** C4 (as the code behaves). Every produced range [(start, end)] has its
    start in [[0, N)] and [start <= end < start + W]; with a nonnegative
    threshold the range is not empty. The end index is [start + j] for the
    window length [j], whether or not it stays below [N]. *)
Theorem segment_range_bounds (ref_x ref_y : list Z) (threshold : Z) (s e : nat) :
  (s, e) ∈ get_start_to_end_list ref_x ref_y threshold →
  s < length ref_x ∧ s ≤ e < s + W ∧ ((0 ≤ threshold)%Z → s < e).
Proof.
  intros (j & Hs & Hj & -> & Hq)%elem_of_segmenter.
  split; [done|]. split; [lia|]. intros Hth.
  destruct j; [|lia]. rewrite !clipped_window_sum_0 in Hq. lia.
Qed.

Lemma segment_range_bounds_witness :
  (0, 1) ∈ get_start_to_end_list [5%Z] [0%Z] 0
  ∧ 0 < length [5%Z] ∧ 0 ≤ 1 < 0 + W ∧ ((0 ≤ 0)%Z → 0 < 1).
Proof.
  assert (H : (0, 1) ∈ get_start_to_end_list [5%Z] [0%Z] 0).
  { apply (bool_decide_unpack _). vm_compute. exact I. }
  exact (conj H (segment_range_bounds [5%Z] [0%Z] 0 0 1 H)).
Defined.

(** C4 (as claimed) fails: for one delta row ([N = 1]) the range [(0, 1)]
    is produced, and its end index is not below [N]. *)
Lemma segment_range_end_not_below_N :
  (0, 1) ∈ get_start_to_end_list [5%Z] [0%Z] 0 ∧ ¬ 1 < length [5%Z].
Proof.
  split; [|simpl; lia]. apply (bool_decide_unpack _). vm_compute. exact I.
Qed.

(** ** Threshold 0 *)

Lemma foldr_add_nonneg (l : list Z) (x : Z) :
  Forall (λ v, 0 ≤ v)%Z l → x ∈ l → (x ≤ foldr Z.add 0 l)%Z.
Proof.
  induction 1 as [|y l Hy Hl IH]; intros Hx; simpl.
  - by apply elem_of_nil in Hx.
  - assert (0 ≤ foldr Z.add 0 l)%Z.
    { clear IH Hx. induction Hl; simpl; lia. }
    apply elem_of_cons in Hx as [->|Hx]; [lia|]. specialize (IH Hx). lia.
Qed.

Lemma clipped_window_sum_positive (ref : list Z) (p i j : nat) (d : Z) :
  ref !! p = Some d → (0 < d)%Z → i ≤ p < i + j →
  (∀ k v, i ≤ k < i + j → ref !! k = Some v → (0 ≤ v)%Z) →
  (0 < clipped_window_sum ref i j)%Z.
Proof.
  intros Hp Hd Hwin Hnonneg. unfold clipped_window_sum.
  assert (d ≤ foldr Z.add 0 (omap (λ k, ref !! k) (seq i j)))%Z; [|lia].
  apply foldr_add_nonneg.
  - apply Forall_forall. intros v (k & Hk & Hv)%list_elem_of_omap.
    apply elem_of_seq in Hk. by apply (Hnonneg k).
  - apply list_elem_of_omap. exists p. split; [|done]. apply elem_of_seq. lia.
Qed.

(** C5 (as the code behaves). With threshold 0, let one of the two
    reference channels have a positive delta at index [p]. Every window
    [(i, i + j)] with [j < W] that contains [p] and holds no negative
    delta of that channel is a produced range. *)
Theorem threshold_zero_saturation
    (ref_x ref_y ref : list Z) (p i j : nat) (d : Z) :
  length ref_x = length ref_y →
  ref = ref_x ∨ ref = ref_y →
  ref !! p = Some d → (0 < d)%Z →
  i ≤ p < i + j → j < W →
  (∀ k v, i ≤ k < i + j → ref !! k = Some v → (0 ≤ v)%Z) →
  (i, i + j) ∈ get_start_to_end_list ref_x ref_y 0.
Proof.
  intros Hlen Href Hp Hd Hwin Hj Hnonneg.
  pose proof (clipped_window_sum_positive ref p i j d Hp Hd Hwin Hnonneg) as Hsum.
  apply lookup_lt_Some in Hp.
  apply elem_of_segmenter. exists j. split.
  { destruct Href as [->| ->]; lia. }
  split; [done|]. split; [done|].
  destruct Href as [->| ->]; [by left|by right].
Qed.

Lemma threshold_zero_saturation_witness :
  (0, 0 + 2) ∈ get_start_to_end_list [0; 5; 1]%Z [0; 0; 0]%Z 0.
Proof.
  apply (threshold_zero_saturation [0; 5; 1]%Z [0; 0; 0]%Z [0; 5; 1]%Z 1 0 2 5%Z).
  - reflexivity.
  - left. reflexivity.
  - reflexivity.
  - lia.
  - lia.
  - unfold W. lia.
  - intros k v Hk Hv.
    destruct k as [|[|k]]; simpl in Hv; [injection Hv as <-; lia..|lia].
Defined.

(** C5 (as claimed) fails, in three ways. A window that starts before the
    positive delta need not reach it; a negative delta in the window can
    cancel it; and a window of length 30 is never produced. *)
Lemma threshold_zero_not_every_window :
  ([0; 5]%Z !! 1 = Some 5%Z ∧ 0 ≤ 1 ∧ 1 ≤ 1
   ∧ (0, 0 + 1) ∉ get_start_to_end_list [0; 5]%Z [0; 0]%Z 0)
  ∧ ([-7; 5]%Z !! 1 = Some 5%Z ∧ 0 ≤ 1 ∧ 1 ≤ 2
     ∧ (0, 0 + 2) ∉ get_start_to_end_list [-7; 5]%Z [0; 0]%Z 0)
  ∧ ([5]%Z !! 0 = Some 5%Z ∧ 0 ≤ 0 ∧ 1 ≤ 30
     ∧ (0, 0 + 30) ∉ get_start_to_end_list [5]%Z [0]%Z 0).
Proof.
  repeat split; try lia;
    apply (bool_decide_eq_false_1 _); vm_compute; reflexivity.
Qed.

(** * The range aggregator *)

Lemma create_timestamps_column_fill (ranges : list (nat * nat)) :
  create_timestamps_column ranges
  = fill_rows "timestamps" timestamps_label (new_frame ["timestamps"] []) ranges.
Proof. reflexivity. Qed.

Lemma create_column_of_sum_for_kp_in_range_fill
    (delta_kp_column : Series Z) (ranges : list (nat * nat)) :
  create_column_of_sum_for_kp_in_range delta_kp_column ranges
  = fill_rows "sums"
      (λ i j, series_sum (series_slice delta_kp_column i j))
      (new_frame ["sums"] []) ranges.
Proof. reflexivity. Qed.

Lemma fill_rows_app {A : Type} col (f : nat → nat → A) df l1 l2 :
  fill_rows col f df (l1 ++ l2) = fill_rows col f (fill_rows col f df l1) l2.
Proof. apply foldl_app. Qed.

(** Ranges that start elsewhere leave the row of key [i] alone. *)
Lemma fill_rows_other_starts {A : Type} col (f : nat → nat → A) df ranges i :
  forallb (λ r, negb (r.1 =? i)) ranges = true →
  cell_at (fill_rows col f df ranges) col i = cell_at df col i.
Proof.
  revert df. induction ranges as [|[s e] ranges IH]; intros df; simpl; [done|].
  intros [Hs Hrest]%andb_true_iff.
  change (cell_at (fill_rows col f (at_set df s col (Some (f s e))) ranges) col i
          = cell_at df col i).
  rewrite IH by done. rewrite cell_at_at_set.
  apply negb_true_iff, Nat.eqb_neq in Hs.
  rewrite decide_False; [done|]. intros [_ ?]. done.
Qed.

(** The last range that starts at [i] decides the row of key [i]. *)
Lemma fill_rows_last_wins {A : Type} col (f : nat → nat → A) df before after i j :
  forallb (λ r, negb (r.1 =? i)) after = true →
  cell_at (fill_rows col f df (before ++ (i, j) :: after)) col i = Some (f i j).
Proof.
  intros Hafter. rewrite fill_rows_app.
  change (cell_at (fill_rows col f
                     (at_set (fill_rows col f df before) i col (Some (f i j)))
                     after) col i = Some (f i j)).
  rewrite fill_rows_other_starts by done.
  rewrite cell_at_at_set. by rewrite decide_True.
Qed.

(** Row keys are never repeated, and every start index is a row key. *)
Lemma fill_rows_index {A : Type} col (f : nat → nat → A) df ranges :
  NoDup (index df) →
  NoDup (index (fill_rows col f df ranges))
  ∧ ∀ t, t ∈ index (fill_rows col f df ranges)
         ↔ t ∈ index df ∨ t ∈ ranges.*1.
Proof.
  revert df. induction ranges as [|[s e] ranges IH]; intros df Hnd; simpl.
  - split; [done|]. intros t. rewrite elem_of_nil. tauto.
  - change (NoDup (index (fill_rows col f (at_set df s col (Some (f s e))) ranges))
            ∧ ∀ t, t ∈ index (fill_rows col f (at_set df s col (Some (f s e))) ranges)
                   ↔ t ∈ index df ∨ t ∈ s :: ranges.*1).
    destruct (IH (at_set df s col (Some (f s e)))) as [Hnd' Hin].
    { simpl. case_decide; [done|]. apply NoDup_app. split; [done|].
      split; [|apply NoDup_singleton].
      intros x Hx ->%list_elem_of_singleton. done. }
    split; [done|]. intros t. rewrite Hin. simpl. rewrite elem_of_cons.
    case_decide as Hs.
    + split; [tauto|]. intros [?|[->|?]]; tauto.
    + rewrite elem_of_app, list_elem_of_singleton. tauto.
Qed.

(** C8 (as the code behaves). Rows are keyed by the start index alone.
    In a range list where [(2, 4)] comes before [(2, 7)] and no later
    range starts at 2, the row of key 2 holds the label ["2-7"] and, for
    every channel, the sum of its deltas over [[2, 7)]; key 2 is a row key
    and no row key is repeated. *)
Theorem aggregation_overwrite
    (l1 l2 l3 : list (nat * nat)) (delta_kp_column : Series Z) :
  forallb (λ r, negb (r.1 =? 2)) l3 = true →
  let ranges := l1 ++ [(2, 4)] ++ l2 ++ [(2, 7)] ++ l3 in
  cell_at (create_timestamps_column ranges) "timestamps" 2 = Some "2-7"
  ∧ cell_at (create_column_of_sum_for_kp_in_range delta_kp_column ranges) "sums" 2
    = Some (series_sum (series_slice delta_kp_column 2 7))
  ∧ 2 ∈ index (create_timestamps_column ranges)
  ∧ NoDup (index (create_timestamps_column ranges))
  ∧ 2 ∈ index (create_column_of_sum_for_kp_in_range delta_kp_column ranges)
  ∧ NoDup (index (create_column_of_sum_for_kp_in_range delta_kp_column ranges)).
Proof.
  intros Hl3 ranges.
  assert (Hranges : ranges = (l1 ++ [(2, 4)] ++ l2) ++ (2, 7) :: l3).
  { unfold ranges. by rewrite <- !app_assoc. }
  assert (Hstart : 2 ∈ ranges.*1).
  { rewrite Hranges, fmap_app, elem_of_app. right. simpl. by left. }
  rewrite create_timestamps_column_fill, create_column_of_sum_for_kp_in_range_fill.
  destruct (fill_rows_index "timestamps" timestamps_label
              (new_frame ["timestamps"] []) ranges) as [Hnd1 Hin1];
    [apply NoDup_nil_2|].
  destruct (fill_rows_index "sums"
              (λ i j, series_sum (series_slice delta_kp_column i j))
              (new_frame ["sums"] []) ranges) as [Hnd2 Hin2];
    [apply NoDup_nil_2|].
  split; [|split; [|split; [|split; [|split]]]]; try done.
  - rewrite Hranges. by rewrite fill_rows_last_wins.
  - rewrite Hranges. by rewrite fill_rows_last_wins.
  - apply Hin1. by right.
  - apply Hin2. by right.
Qed.

Lemma aggregation_overwrite_witness :
  let ranges := [(1, 3)] ++ [(2, 4)] ++ [(2, 5)] ++ [(2, 7)] ++ [(3, 9)] in
  cell_at (create_timestamps_column ranges) "timestamps" 2 = Some "2-7"
  ∧ cell_at (create_column_of_sum_for_kp_in_range example_column ranges) "sums" 2
    = Some (series_sum (series_slice example_column 2 7))
  ∧ 2 ∈ index (create_timestamps_column ranges)
  ∧ NoDup (index (create_timestamps_column ranges))
  ∧ 2 ∈ index (create_column_of_sum_for_kp_in_range example_column ranges)
  ∧ NoDup (index (create_column_of_sum_for_kp_in_range example_column ranges)).
Proof.
  apply (aggregation_overwrite [(1, 3)] [(2, 5)] [(3, 9)] example_column).
  reflexivity.
Defined.

(** C8 (as claimed) fails: when a third range that starts at 2 follows
    [(2, 4)] and [(2, 7)], the row of key 2 holds its label and its sums. *)
Lemma aggregation_overwrite_by_later_range :
  cell_at (create_timestamps_column [(2, 4); (2, 7); (2, 9)]) "timestamps" 2
  ≠ Some "2-7"
  ∧ cell_at (create_timestamps_column [(2, 4); (2, 7); (2, 9)]) "timestamps" 2
    = Some "2-9"
  ∧ cell_at (create_column_of_sum_for_kp_in_range example_column
               [(2, 4); (2, 7); (2, 9)]) "sums" 2
    ≠ Some (series_sum (series_slice example_column 2 7)).
Proof.
  split; [vm_compute; discriminate|].
  split; [vm_compute; reflexivity|vm_compute; discriminate].
Qed.


(** * Further properties of the delta scan *)

Lemma channel_all_cell p x_y_data kp t :
  channel_all p x_y_data kp = true → t ∈ index x_y_data →
  cell_at x_y_data kp t = Some (value x_y_data kp t)
  ∧ p (value x_y_data kp t) = true.
Proof.
  unfold channel_all, value. rewrite forallb_forall. intros Hall Ht.
  apply list_elem_of_In in Ht. specialize (Hall t Ht).
  by destruct (cell_at x_y_data kp t).
Qed.

Lemma last_detected_le (v : nat → Z) (i : nat) : last_detected v i ≤ i.
Proof.
  induction i as [|i IH]; simpl; [done|]. destruct (0 <? v (S i))%Z; lia.
Qed.

Lemma last_detected_positive (v : nat → Z) (i : nat) :
  (0 < v i)%Z → last_detected v i = i.
Proof.
  destruct i as [|i]; simpl; [done|]. intros H.
  by apply Z.ltb_lt in H as ->.
Qed.

Lemma last_detected_zero (v : nat → Z) (i : nat) :
  v (S i) = 0%Z → last_detected v (S i) = last_detected v i.
Proof. simpl. by intros ->. Qed.

(** While the channel is in a gap, the first scalar of the scan is the
    last detected step and the second is the distance to it. *)
Lemma gap_state_in_gap (c : nat → cell Z) (v : nat → Z) (i : nat) :
  (∀ t, t ≤ i → c t = Some (v t) ∧ (0 ≤ v t)%Z) →
  v i = 0%Z →
  gap_state_before c i = (last_detected v i, i - last_detected v i).
Proof.
  induction i as [|i IH]; intros Hc Hvi; [done|].
  replace (S i) with (i + 1) at 1 by lia.
  rewrite gap_state_before_succ.
  destruct (Hc i ltac:(lia)) as [Hci Hi0].
  destruct (Hc (S i) ltac:(lia)) as [Hci1 _].
  replace (i + 1) with (S i) by lia. rewrite Hci, Hci1.
  rewrite (last_detected_zero _ _ Hvi).
  pose proof (last_detected_le v i) as Hle.
  destruct (branch_of_cases (v i) (v (S i)))
    as [(Ha & Hb & Hbr)|[(Ha & Hb & Hbr)|[(Ha & Hb & Hbr)|[(Ha & Hb & Hbr)|[Hneg _]]]]];
    rewrite ?Hbr; try lia.
  - rewrite IH; [simpl; f_equal; lia| |done].
    intros t Ht. apply Hc. lia.
  - rewrite (last_detected_positive v i) by lia. f_equal. lia.
Qed.

(** What a transition of a channel of nonnegative numbers writes and
    records, without the scan state. *)
Lemma transition_closed_form (c : nat → cell Z) (v : nat → Z) (i : nat) :
  (∀ t, t ≤ i + 1 → c t = Some (v t) ∧ (0 ≤ v t)%Z) →
  assigned_delta c i
  = Some (Some (if (0 <? v (i + 1)%nat)%Z
                then (v (i + 1)%nat - v (last_detected v i))%Z else 0%Z))
  ∧ recorded_zero_run c i
    = if (v i =? 0)%Z && (0 <? v (i + 1)%nat)%Z
      then Some (i - last_detected v i) else None.
Proof.
  intros Hc. unfold assigned_delta, recorded_zero_run.
  destruct (Hc i ltac:(lia)) as [Hci Hi0].
  destruct (Hc (i + 1) ltac:(lia)) as [Hci1 Hi1].
  rewrite Hci, Hci1.
  destruct (branch_of_cases (v i) (v (i + 1)))
    as [(Ha & Hb & Hbr)|[(Ha & Hb & Hbr)|[(Ha & Hb & Hbr)|[(Ha & Hb & Hbr)|[Hneg _]]]]];
    rewrite ?Hbr; try lia.
  - rewrite (last_detected_positive v i) by lia.
    apply Z.ltb_lt in Hb as Hb'. rewrite Hb'. simpl.
    destruct (Z.eqb_spec (v i) 0); [lia|done].
  - rewrite (gap_state_in_gap c v i); [|intros t Ht; apply Hc; lia|done]. simpl.
    pose proof (last_detected_le v i) as Hle.
    destruct (Hc (last_detected v i) ltac:(lia)) as [-> _].
    apply Z.ltb_lt in Hb as ->. rewrite Ha. done.
  - rewrite Hb. by rewrite andb_false_r.
  - rewrite Hb. by rewrite andb_false_r.
Qed.

Lemma nonnegative_channel_cells x_y_data T kp :
  index x_y_data = range T → nonnegative_channel x_y_data kp = true →
  ∀ t, t < T →
    channel_cells x_y_data kp t = Some (value x_y_data kp t)
    ∧ (0 ≤ value x_y_data kp t)%Z.
Proof.
  intros Hindex Hnn t Ht.
  destruct (channel_all_cell _ x_y_data kp t Hnn) as [Hc Hp].
  - rewrite Hindex. by apply elem_of_range.
  - split; [done|]. by apply Z.leb_le.
Qed.

Lemma positive_nonnegative_channel x_y_data kp :
  positive_channel x_y_data kp = true → nonnegative_channel x_y_data kp = true.
Proof.
  unfold positive_channel, nonnegative_channel, channel_all.
  rewrite !forallb_forall. intros Hall t Ht. specialize (Hall t Ht).
  destruct (cell_at x_y_data kp t); [|done].
  apply Z.ltb_lt in Hall. apply Z.leb_le. lia.
Qed.

(** The scan of a channel of a table that has rows and the default row
    labels, seen from the returned locals. *)
Lemma channel_scanned x_y_data T kp :
  index x_y_data = range T → kp ∈ columns x_y_data → T ≠ 0 →
  ∃ L, locals_at_return x_y_data = Ok L
       ∧ get_table_of_deltas_between_time_stamps_in_all_kps x_y_data
         = Ok (deltas L)
       ∧ frame_shape x_y_data T L
       ∧ channel_done x_y_data T L kp.
Proof.
  intros Hindex Hkp HT.
  destruct (locals_at_return_spec x_y_data T Hindex HT) as (L & Hret & Hshape & Hdone).
  { intros Hnil. rewrite Hnil in Hkp. by apply elem_of_nil in Hkp. }
  exists L. split; [done|]. split; [|by auto].
  unfold get_table_of_deltas_between_time_stamps_in_all_kps. by rewrite Hret.
Qed.

(** X1. On a table with the default row labels, at least one row and at
    least one channel, the function raises nothing and returns a frame
    with the channels of the input, in their order, and the rows
    [0 .. T-2]: one row fewer than the input. *)
Theorem delta_table_shape (x_y_data : DataFrame Z) (T : nat) :
  index x_y_data = range T → T ≠ 0 → columns x_y_data ≠ [] →
  ∃ D, get_table_of_deltas_between_time_stamps_in_all_kps x_y_data = Ok D
       ∧ columns D = columns x_y_data
       ∧ index D = range (T - 1)
       ∧ len D = len x_y_data - 1.
Proof.
  intros Hindex HT Hcols.
  destruct (locals_at_return_spec x_y_data T Hindex HT Hcols)
    as (L & Hret & [Hc Hi] & _).
  exists (deltas L).
  unfold get_table_of_deltas_between_time_stamps_in_all_kps. rewrite Hret.
  split; [done|]. split; [done|]. split; [done|].
  unfold len. rewrite Hi, Hindex. unfold range. by rewrite !length_seq.
Qed.

Lemma delta_table_shape_witness :
  ∃ D, get_table_of_deltas_between_time_stamps_in_all_kps mixed_table = Ok D
       ∧ columns D = columns mixed_table
       ∧ index D = range (4 - 1)
       ∧ len D = len mixed_table - 1.
Proof.
  apply (delta_table_shape mixed_table 4); [reflexivity|lia|discriminate].
Defined.

(** X2. In a channel of nonnegative numbers, the delta of transition [i]
    is 0 when the next value is 0 (undetected), and otherwise the next
    value minus the value at the last detected step up to [i] (the value
    at step 0 if the channel was never detected before). *)
Theorem nonnegative_channel_delta
    (x_y_data : DataFrame Z) (T : nat) (kp : string) (i : nat) :
  index x_y_data = range T →
  kp ∈ columns x_y_data →
  nonnegative_channel x_y_data kp = true →
  i + 1 < T →
  ∃ D, get_table_of_deltas_between_time_stamps_in_all_kps x_y_data = Ok D
       ∧ cell_at D kp i
         = Some (if (0 <? value x_y_data kp (i + 1))%Z
                 then (value x_y_data kp (i + 1)
                       - value x_y_data kp
                           (last_detected (value x_y_data kp) i))%Z
                 else 0%Z).
Proof.
  intros Hindex Hkp Hnn Hi.
  destruct (channel_scanned x_y_data T kp Hindex Hkp ltac:(lia))
    as (L & _ & Hget & _ & Hcells & _).
  exists (deltas L). split; [done|].
  rewrite Hcells by lia. unfold final_cell.
  destruct (transition_closed_form (channel_cells x_y_data kp)
              (value x_y_data kp) i) as [-> _]; [|done].
  intros t Ht. apply (nonnegative_channel_cells x_y_data T); [done..|lia].
Qed.

Lemma nonnegative_channel_delta_witness :
  ∃ D, get_table_of_deltas_between_time_stamps_in_all_kps scenario_table = Ok D
       ∧ cell_at D "kp" 4
         = Some (if (0 <? value scenario_table "kp" (4 + 1))%Z
                 then (value scenario_table "kp" (4 + 1)
                       - value scenario_table "kp"
                           (last_detected (value scenario_table "kp") 4))%Z
                 else 0%Z).
Proof.
  apply (nonnegative_channel_delta scenario_table 6 "kp" 4);
    [reflexivity|constructor|reflexivity|lia].
Defined.

(** X3. In a channel of nonnegative numbers, a zero-run length is
    recorded exactly for the transitions that leave a gap (value 0
    followed by a positive value), and it is the distance from the
    transition to the last detected step: [i - last_detected i]. *)
Theorem bridging_diagnostic
    (x_y_data : DataFrame Z) (T : nat) (kp : string) (i : nat) :
  index x_y_data = range T →
  kp ∈ columns x_y_data →
  nonnegative_channel x_y_data kp = true →
  i + 1 < T →
  ∃ L, locals_at_return x_y_data = Ok L
       ∧ (counter_of_all_zeros_in_a_row_for_all_kps L !!! kp) !! i
         = if (value x_y_data kp i =? 0)%Z
              && (0 <? value x_y_data kp (i + 1))%Z
           then Some (i - last_detected (value x_y_data kp) i)
           else None.
Proof.
  intros Hindex Hkp Hnn Hi.
  destruct (channel_scanned x_y_data T kp Hindex Hkp ltac:(lia))
    as (L & Hret & _ & _ & _ & Hcounters).
  exists L. split; [done|].
  rewrite Hcounters, decide_True by lia.
  destruct (transition_closed_form (channel_cells x_y_data kp)
              (value x_y_data kp) i) as [_ ->]; [|done].
  intros t Ht. apply (nonnegative_channel_cells x_y_data T); [done..|lia].
Qed.

Lemma bridging_diagnostic_witness :
  ∃ L, locals_at_return zero_run_table = Ok L
       ∧ (counter_of_all_zeros_in_a_row_for_all_kps L !!! "kp") !! 3
         = if (value zero_run_table "kp" 3 =? 0)%Z
              && (0 <? value zero_run_table "kp" (3 + 1))%Z
           then Some (3 - last_detected (value zero_run_table "kp") 3)
           else None.
Proof.
  apply (bridging_diagnostic zero_run_table 5 "kp" 3);
    [reflexivity|constructor|reflexivity|lia].
Defined.

Lemma last_detected_all_zero (v : nat → Z) (i : nat) :
  forallb (λ t, (v t =? 0)%Z) (seq 0 (S i)) = true → last_detected v i = 0.
Proof.
  rewrite forallb_forall. intros Hall.
  induction i as [|i IH]; simpl; [done|].
  assert (v (S i) = 0%Z) as ->.
  { apply Z.eqb_eq, Hall, in_seq. lia. }
  simpl. apply IH. intros t Ht. apply Hall. apply in_seq in Ht. apply in_seq. lia.
Qed.

(** X4. A channel of nonnegative numbers that starts undetected: if the
    steps [0 .. i] are all zero and step [i + 1] is positive, the delta
    of transition [i] is the value of step [i + 1] itself (the
    subtraction is made against the zero at step 0), and the recorded
    zero-run length is [i], one less than the [i + 1] zeros of the run. *)
Theorem leading_gap_bridges_from_zero
    (x_y_data : DataFrame Z) (T : nat) (kp : string) (i : nat) :
  index x_y_data = range T →
  kp ∈ columns x_y_data →
  nonnegative_channel x_y_data kp = true →
  i + 1 < T →
  forallb (λ t, (value x_y_data kp t =? 0)%Z) (seq 0 (S i)) = true →
  (0 < value x_y_data kp (i + 1))%Z →
  ∃ L, locals_at_return x_y_data = Ok L
       ∧ cell_at (deltas L) kp i = Some (value x_y_data kp (i + 1))
       ∧ (counter_of_all_zeros_in_a_row_for_all_kps L !!! kp) !! i = Some i.
Proof.
  intros Hindex Hkp Hnn Hi Hzeros Hpos.
  destruct (channel_scanned x_y_data T kp Hindex Hkp ltac:(lia))
    as (L & Hret & _ & _ & Hcells & Hcounters).
  exists L. split; [done|].
  rewrite Hcells, Hcounters, decide_True by lia. unfold final_cell.
  destruct (transition_closed_form (channel_cells x_y_data kp)
              (value x_y_data kp) i) as [-> ->].
  { intros t Ht. apply (nonnegative_channel_cells x_y_data T); [done..|lia]. }
  rewrite (last_detected_all_zero _ _ Hzeros).
  assert (value x_y_data kp i = 0%Z) as Hvi.
  { rewrite forallb_forall in Hzeros. apply Z.eqb_eq, Hzeros, in_seq. lia. }
  assert (value x_y_data kp 0 = 0%Z) as Hv0.
  { rewrite forallb_forall in Hzeros. apply Z.eqb_eq, Hzeros, in_seq. lia. }
  apply Z.ltb_lt in Hpos as Hpos'. rewrite Hpos', Hvi, Hv0. simpl.
  split; do 2 f_equal; lia.
Qed.

Lemma leading_gap_bridges_from_zero_witness :
  ∃ L, locals_at_return late_start_table = Ok L
       ∧ cell_at (deltas L) "kp" 2 = Some (value late_start_table "kp" (2 + 1))
       ∧ (counter_of_all_zeros_in_a_row_for_all_kps L !!! "kp") !! 2 = Some 2.
Proof.
  apply (leading_gap_bridges_from_zero late_start_table 4 "kp" 2);
    [reflexivity|constructor|reflexivity|lia|reflexivity|reflexivity].
Defined.

(** X5. In a channel without zeros (every value positive), every delta is
    the distance between the two neighbouring values, as
    [get_distance_of_coordinate_between_two_time_stamps] computes it, and
    no zero-run length is recorded for the channel. *)
Theorem no_gap_identity
    (x_y_data : DataFrame Z) (T : nat) (kp : string) (i : nat) :
  index x_y_data = range T →
  kp ∈ columns x_y_data →
  positive_channel x_y_data kp = true →
  i + 1 < T →
  ∃ L, locals_at_return x_y_data = Ok L
       ∧ cell_at (deltas L) kp i
         = Some (get_distance_of_coordinate_between_two_time_stamps
                   (value x_y_data kp i) (value x_y_data kp (i + 1)))
       ∧ ∀ t, (counter_of_all_zeros_in_a_row_for_all_kps L !!! kp) !! t = None.
Proof.
  intros Hindex Hkp Hpos Hi.
  pose proof (positive_nonnegative_channel _ _ Hpos) as Hnn.
  assert (Hv : ∀ t, t < T → (0 < value x_y_data kp t)%Z).
  { intros t Ht. apply Z.ltb_lt.
    apply (channel_all_cell _ x_y_data kp t Hpos).
    rewrite Hindex. by apply elem_of_range. }
  destruct (channel_scanned x_y_data T kp Hindex Hkp ltac:(lia))
    as (L & Hret & _ & _ & Hcells & Hcounters).
  exists L. split; [done|]. split.
  - rewrite Hcells by lia. unfold final_cell.
    destruct (transition_closed_form (channel_cells x_y_data kp)
                (value x_y_data kp) i) as [-> _].
    { intros t Ht. apply (nonnegative_channel_cells x_y_data T); [done..|lia]. }
    rewrite (last_detected_positive _ i) by (apply Hv; lia).
    pose proof (Hv (i + 1) ltac:(lia)) as H1. apply Z.ltb_lt in H1 as ->. done.
  - intros t. rewrite Hcounters. case_decide as Ht; [|done].
    destruct (transition_closed_form (channel_cells x_y_data kp)
                (value x_y_data kp) t) as [_ ->].
    { intros t' Ht'. apply (nonnegative_channel_cells x_y_data T); [done..|lia]. }
    pose proof (Hv t ltac:(lia)) as H0.
    destruct (Z.eqb_spec (value x_y_data kp t) 0); [lia|done].
Qed.

Lemma no_gap_identity_witness :
  ∃ L, locals_at_return steady_table = Ok L
       ∧ cell_at (deltas L) "kp" 1
         = Some (get_distance_of_coordinate_between_two_time_stamps
                   (value steady_table "kp" 1) (value steady_table "kp" (1 + 1)))
       ∧ ∀ t, (counter_of_all_zeros_in_a_row_for_all_kps L !!! "kp") !! t = None.
Proof.
  apply (no_gap_identity steady_table 4 "kp" 1);
    [reflexivity|constructor|reflexivity|lia].
Defined.

(** ** Sums of deltas *)

Lemma sum_ints_snoc (l : list Z) (x : Z) : sum_ints (l ++ [x]) = (sum_ints l + x)%Z.
Proof. unfold sum_ints. by rewrite foldl_snoc. Qed.


(** The values of a column, read cell by cell. *)
Lemma column_values_cells {A : Type} (df : DataFrame A) (kp : string) :
  series_values (column df kp) = (λ t, cell_at df kp t) <$> index df.
Proof. reflexivity. Qed.






(** ** Independence of the channels *)

Lemma gap_state_before_ext (c c' : nat → cell Z) (i : nat) :
  (∀ t, t ≤ i → c t = c' t) → gap_state_before c i = gap_state_before c' i.
Proof.
  induction i as [|i IH]; intros Hc; simpl; [done|].
  rewrite IH by (intros t Ht; apply Hc; lia).
  by rewrite (Hc i), (Hc (i + 1)) by lia.
Qed.

Lemma assigned_delta_ext (c c' : nat → cell Z) (i : nat) :
  (∀ t, t ≤ i + 1 → c t = c' t) → assigned_delta c i = assigned_delta c' i.
Proof.
  intros Hc. unfold assigned_delta.
  rewrite (gap_state_before_ext c c' i) by (intros t Ht; apply Hc; lia).
  pose proof (gap_state_before_loc c' i) as Hloc.
  by rewrite (Hc i), (Hc (i + 1)), (Hc (gap_state_before c' i).1) by lia.
Qed.

Lemma column_values_default_index {A : Type} (df df' : DataFrame A) T kp t :
  index df = range T → index df' = range T →
  column_values df kp = column_values df' kp →
  t < T → cell_at df kp t = cell_at df' kp t.
Proof.
  intros Hi Hi' Heq Ht. unfold column_values in Heq.
  rewrite !column_values_cells, Hi, Hi' in Heq.
  assert (Hl : ((λ t, cell_at df kp t) <$> range T) !! t
               = ((λ t, cell_at df' kp t) <$> range T) !! t) by by rewrite Heq.
  rewrite !list_lookup_fmap in Hl. unfold range in Hl.
  rewrite lookup_seq_lt in Hl by done. simpl in Hl. by injection Hl.
Qed.

(** X7. The channels are scanned independently: if a channel has the same
    values in two tables of the same length, its deltas are the same in
    the two results, whatever the other channels are. *)
Theorem delta_channel_independence
    (x_y_data x_y_data' : DataFrame Z) (T : nat) (kp : string) :
  index x_y_data = range T → index x_y_data' = range T → T ≠ 0 →
  kp ∈ columns x_y_data → kp ∈ columns x_y_data' →
  column_values x_y_data kp = column_values x_y_data' kp →
  ∃ D D',
    get_table_of_deltas_between_time_stamps_in_all_kps x_y_data = Ok D
    ∧ get_table_of_deltas_between_time_stamps_in_all_kps x_y_data' = Ok D'
    ∧ column_values D kp = column_values D' kp.
Proof.
  intros Hindex Hindex' HT Hkp Hkp' Hsame.
  destruct (channel_scanned x_y_data T kp Hindex Hkp HT)
    as (L & _ & Hget & [_ Hidx] & Hcells & _).
  destruct (channel_scanned x_y_data' T kp Hindex' Hkp' HT)
    as (L' & _ & Hget' & [_ Hidx'] & Hcells' & _).
  exists (deltas L), (deltas L'). split; [done|]. split; [done|].
  unfold column_values. rewrite !column_values_cells, Hidx, Hidx'.
  apply list_fmap_ext. intros k t Ht%lookup_seq. simpl in Ht.
  destruct Ht as [-> Ht].
  rewrite Hcells, Hcells' by lia. unfold final_cell. f_equal.
  apply assigned_delta_ext. intros t' Ht'.
  apply (column_values_default_index x_y_data x_y_data' T); [done..|lia].
Qed.

Lemma delta_channel_independence_witness :
  ∃ D D',
    get_table_of_deltas_between_time_stamps_in_all_kps mixed_table = Ok D
    ∧ get_table_of_deltas_between_time_stamps_in_all_kps other_mixed_table = Ok D'
    ∧ column_values D "a" = column_values D' "a".
Proof.
  apply (delta_channel_independence mixed_table other_mixed_table 4 "a");
    [reflexivity|reflexivity|lia|constructor|by right; constructor|reflexivity].
Defined.

(** ** Row labels *)

(** X8. The rows are read by the labels [0, 1, ...]: a table with at
    least two rows and at least one channel whose row labels do not
    include 0 raises [KeyError] for the label 0. *)
Theorem missing_row_label_raises (x_y_data : DataFrame Z) :
  1 < len x_y_data → columns x_y_data ≠ [] → 0 ∉ index x_y_data →
  get_table_of_deltas_between_time_stamps_in_all_kps x_y_data
  = Raise (KeyError (inr 0)).
Proof.
  intros Hlen Hcols H0.
  unfold get_table_of_deltas_between_time_stamps_in_all_kps, locals_at_return.
  assert (frame_empty x_y_data = false) as ->.
  { destruct (frame_empty x_y_data) eqn:He; [|done].
    apply frame_empty_spec in He as [He|He]; [|done].
    unfold len in Hlen. rewrite He in Hlen. simpl in Hlen. lia. }
  destruct (columns x_y_data) as [|k ks] eqn:Hk; [done|].
  assert (item x_y_data k 0 = Raise (KeyError (inr 0))) as Hitem.
  { unfold item, getitem. rewrite decide_True by (rewrite Hk; left). simpl.
    unfold series_getitem. simpl. by rewrite decide_False. }
  assert (scan_channel x_y_data (initial_locals x_y_data) k
          = Raise (KeyError (inr 0))) as Hscan.
  { unfold scan_channel.
    destruct (len x_y_data - 1) as [|n] eqn:Hn; [lia|].
    unfold range. simpl seq. simpl for_each.
    unfold transition, enter_channel, cond_both_positive, and_.
    by rewrite Hitem. }
  simpl for_each. by rewrite Hscan.
Qed.

Lemma missing_row_label_raises_witness :
  get_table_of_deltas_between_time_stamps_in_all_kps shifted_labels_table
  = Raise (KeyError (inr 0)).
Proof.
  apply missing_row_label_raises.
  - unfold len. simpl. lia.
  - discriminate.
  - intros H. apply (bool_decide_pack _) in H. vm_compute in H. exact H.
Defined.

(** * Further properties of the threshold segmenter *)

Lemma sublist_bind {A B : Type} (f g : A → list B) (l : list A) :
  (∀ a, f a `sublist_of` g a) → l ≫= f `sublist_of` l ≫= g.
Proof.
  intros Hfg. induction l as [|a l IH]; simpl; [done|]. by apply sublist_app.
Qed.

(** X9. Raising the threshold only removes ranges: the result for a
    higher threshold is the result for a lower one with some ranges left
    out, the others in the same order. *)
Theorem segmenter_threshold_monotone
    (values_x values_y : list Z) (threshold threshold' : Z) :
  (threshold ≤ threshold')%Z →
  get_start_to_end_list values_x values_y threshold'
  `sublist_of` get_start_to_end_list values_x values_y threshold.
Proof.
  intros Hth. rewrite !segmenter_refines. unfold find_ranges_reference.
  apply sublist_bind. intros i. apply sublist_bind. intros j.
  destruct (bool_decide ((threshold' < clipped_window_sum values_x i j)%Z
                         ∨ (threshold' < clipped_window_sum values_y i j)%Z))
    eqn:Hq'; [|apply sublist_nil_l].
  apply bool_decide_eq_true_1 in Hq'.
  rewrite bool_decide_eq_true_2; [done|].
  lia.
Qed.

Lemma segmenter_threshold_monotone_witness :
  get_start_to_end_list [1; 4; 2]%Z [0; 0; 3]%Z 5
  `sublist_of` get_start_to_end_list [1; 4; 2]%Z [0; 0; 3]%Z 2.
Proof. apply segmenter_threshold_monotone. lia. Defined.



Lemma clipped_window_sum_split (ref : list Z) (i j k : nat) :
  clipped_window_sum ref i (j + k)
  = (clipped_window_sum ref i j + clipped_window_sum ref (i + j) k)%Z.
Proof.
  unfold clipped_window_sum. rewrite seq_app, omap_app, foldr_app.
  generalize (foldr Z.add 0%Z (omap (λ k0, ref !! k0) (seq (i + j) k))).
  induction (omap (λ k0, ref !! k0) (seq i j)) as [|x l IH]; intros z; simpl.
  - lia.
  - rewrite IH. lia.
Qed.

Lemma clipped_window_sum_sign (p : Z → bool) (ref : list Z) (i j : nat) :
  (∀ a b, p a = true → p b = true → p (a + b)%Z = true) → p 0%Z = true →
  forallb p ref = true → p (clipped_window_sum ref i j) = true.
Proof.
  intros Hadd H0 Hall. rewrite forallb_forall in Hall.
  unfold clipped_window_sum.
  assert (Hin : ∀ x, x ∈ omap (λ k, ref !! k) (seq i j) → p x = true).
  { intros x (k & _ & Hk)%list_elem_of_omap.
    apply Hall, list_elem_of_In, list_elem_of_lookup. eauto. }
  induction (omap (λ k, ref !! k) (seq i j)) as [|x l IH]; simpl; [done|].
  apply Hadd; [apply Hin; left|apply IH; intros y Hy; apply Hin; by right].
Qed.

(** X11. Without a positive delta nothing qualifies: if no delta of either
    reference channel is positive and the threshold is not negative, no
    range is produced. *)
Theorem segmenter_without_movement
    (values_x values_y : list Z) (threshold : Z) :
  forallb (λ d, (d <=? 0)%Z) values_x = true →
  forallb (λ d, (d <=? 0)%Z) values_y = true →
  (0 ≤ threshold)%Z →
  get_start_to_end_list values_x values_y threshold = [].
Proof.
  intros Hx Hy Hth. apply elem_of_nil_inv. intros [s e] Hin.
  apply elem_of_segmenter in Hin as (j & _ & _ & _ & Hq).
  assert (Hsign : ∀ ref, forallb (λ d, (d <=? 0)%Z) ref = true →
                         (clipped_window_sum ref s j ≤ 0)%Z).
  { intros ref Href. apply Z.leb_le.
    apply (clipped_window_sum_sign (λ d, (d <=? 0)%Z)); [|done..].
    intros a b Ha%Z.leb_le Hb%Z.leb_le. apply Z.leb_le. lia. }
  pose proof (Hsign _ Hx). pose proof (Hsign _ Hy). lia.
Qed.

Lemma segmenter_without_movement_witness :
  get_start_to_end_list [0; -3; 0]%Z [-1; 0; 0]%Z 0 = [].
Proof.
  apply segmenter_without_movement; [reflexivity|reflexivity|lia].
Defined.

Lemma clipped_window_sum_mono (ref : list Z) (i j j' : nat) :
  forallb (λ d, (0 <=? d)%Z) ref = true → j ≤ j' →
  (clipped_window_sum ref i j ≤ clipped_window_sum ref i j')%Z.
Proof.
  intros Href Hjj'. replace j' with (j + (j' - j)) by lia.
  rewrite clipped_window_sum_split.
  assert (0 ≤ clipped_window_sum ref (i + j) (j' - j))%Z; [|lia].
  apply Z.leb_le.
  apply (clipped_window_sum_sign (λ d, (0 <=? d)%Z)); [|done..].
  intros a b Ha%Z.leb_le Hb%Z.leb_le. apply Z.leb_le. lia.
Qed.

(** X12. When no delta of the reference channels is negative, the
    qualifying window lengths of a start index are upward closed: if
    [(i, i + j)] is produced, so is [(i, i + j')] for every longer
    window [j <= j' < 30]; in particular [(i, i + 29)] is then produced. *)
Theorem segmenter_longer_windows
    (values_x values_y : list Z) (threshold : Z) (i j j' : nat) :
  forallb (λ d, (0 <=? d)%Z) values_x = true →
  forallb (λ d, (0 <=? d)%Z) values_y = true →
  (i, i + j) ∈ get_start_to_end_list values_x values_y threshold →
  j ≤ j' → j' < 30 →
  (i, i + j') ∈ get_start_to_end_list values_x values_y threshold.
Proof.
  intros Hx Hy Hin Hjj' Hj'.
  apply elem_of_segmenter in Hin as (j0 & Hi & _ & He & Hq).
  assert (j0 = j) as -> by lia.
  apply elem_of_segmenter. exists j'. split; [done|]. split; [done|].
  split; [done|].
  pose proof (clipped_window_sum_mono values_x i j j' Hx Hjj').
  pose proof (clipped_window_sum_mono values_y i j j' Hy Hjj'). lia.
Qed.

Lemma segmenter_longer_windows_witness :
  (0, 0 + 29) ∈ get_start_to_end_list [1; 4; 2]%Z [0; 0; 3]%Z 4.
Proof.
  apply (segmenter_longer_windows [1; 4; 2]%Z [0; 0; 3]%Z 4 0 2 29);
    [reflexivity|reflexivity| |lia|lia].
  apply (bool_decide_unpack _). vm_compute. exact I.
Defined.

(** * Further properties of the column builders *)

Lemma fill_rows_snoc {A : Type} col (f : nat → nat → A) df ranges i j :
  fill_rows col f df (ranges ++ [(i, j)])
  = at_set (fill_rows col f df ranges) i col (Some (f i j)).
Proof. unfold fill_rows. by rewrite foldl_snoc. Qed.

Lemma fill_rows_cell {A : Type} col (f : nat → nat → A) df ranges i :
  cell_at df col i = None →
  cell_at (fill_rows col f df ranges) col i
  = (λ r, f r.1 r.2) <$> last (filter (λ r, r.1 = i) ranges).
Proof.
  intros Hdf. induction ranges as [|[s e] ranges IH] using rev_ind; [done|].
  rewrite fill_rows_snoc, cell_at_at_set, filter_app, filter_cons, filter_nil.
  simpl. destruct (decide (s = i)) as [->|Hne].
  - rewrite decide_True by done. by rewrite last_snoc.
  - rewrite decide_False by (intros [_ ?]; done).
    by rewrite app_nil_r.
Qed.

(** X13. Last wins, in general. For every range list and every key [i],
    the row of key [i] holds the label and the sum of the last range of
    the list that starts at [i]; if no range starts at [i], the key has no
    cell. *)
Theorem aggregation_last_range_wins
    (ranges : list (nat * nat)) (delta_kp_column : Series Z) (i : nat) :
  cell_at (create_timestamps_column ranges) "timestamps" i
  = (λ r, timestamps_label r.1 r.2) <$> last (filter (λ r, r.1 = i) ranges)
  ∧ cell_at (create_column_of_sum_for_kp_in_range delta_kp_column ranges) "sums" i
    = (λ r, series_sum (series_slice delta_kp_column r.1 r.2))
        <$> last (filter (λ r, r.1 = i) ranges).
Proof.
  rewrite create_timestamps_column_fill, create_column_of_sum_for_kp_in_range_fill.
  split.
  - by rewrite (fill_rows_cell "timestamps" timestamps_label)
      by apply cell_at_new_frame.
  - by rewrite (fill_rows_cell "sums"
                  (λ i j, series_sum (series_slice delta_kp_column i j)))
      by apply cell_at_new_frame.
Qed.

Lemma fill_rows_index_independent {A B : Type} col col'
    (f : nat → nat → A) (g : nat → nat → B) df df' ranges :
  index df = index df' →
  index (fill_rows col f df ranges) = index (fill_rows col' g df' ranges).
Proof.
  intros Hidx. induction ranges as [|[s e] ranges IH] using rev_ind; [done|].
  rewrite !fill_rows_snoc. simpl. by rewrite IH.
Qed.

Lemma elem_of_label_keys (ranges : list (nat * nat)) (i : nat) :
  i ∈ index (create_timestamps_column ranges) ↔ ∃ j, (i, j) ∈ ranges.
Proof.
  rewrite create_timestamps_column_fill.
  destruct (fill_rows_index "timestamps" timestamps_label
              (new_frame ["timestamps"] []) ranges) as [_ Hin];
    [apply NoDup_nil_2|].
  rewrite Hin. simpl. rewrite elem_of_nil, list_elem_of_fmap. split.
  - intros [[]|([s e] & -> & Hr)]. by exists e.
  - intros [j Hj]. right. by exists (i, j).
Qed.

(** X14. The two column builders give the same row keys in the same
    order for the same range list, whatever the channel: the label column
    and every sum column of a summary are aligned row by row. The keys
    are the start indices of the ranges, each once. *)
Theorem builders_share_row_keys
    (ranges : list (nat * nat)) (delta_kp_column : Series Z) :
  index (create_column_of_sum_for_kp_in_range delta_kp_column ranges)
  = index (create_timestamps_column ranges)
  ∧ NoDup (index (create_timestamps_column ranges))
  ∧ ∀ i, i ∈ index (create_timestamps_column ranges) ↔ ∃ j, (i, j) ∈ ranges.
Proof.
  rewrite create_timestamps_column_fill, create_column_of_sum_for_kp_in_range_fill.
  split; [by apply fill_rows_index_independent|].
  destruct (fill_rows_index "timestamps" timestamps_label
              (new_frame ["timestamps"] []) ranges) as [Hnd _];
    [apply NoDup_nil_2|].
  split; [done|]. intros i. rewrite <- create_timestamps_column_fill.
  apply elem_of_label_keys.
Qed.

Lemma fill_rows_index_sorted {A : Type} col (f : nat → nat → A) ranges :
  StronglySorted range_lt ranges →
  StronglySorted lt (index (fill_rows col f (new_frame [col] []) ranges)).
Proof.
  induction ranges as [|[s e] ranges IH] using rev_ind; intros Hsorted.
  - constructor.
  - apply StronglySorted_app in Hsorted as (Hcross & Hl & _).
    specialize (IH Hl). rewrite fill_rows_snoc. simpl.
    case_decide as Hs; [done|].
    apply StronglySorted_app_2; [|done|repeat constructor].
    intros t t' Ht ->%list_elem_of_singleton.
    destruct (fill_rows_index col f (new_frame [col] []) ranges) as [_ Hin];
      [apply NoDup_nil_2|].
    assert (t ≠ s) by (intros ->; done).
    apply Hin in Ht as [Ht|Ht]; [by apply elem_of_nil in Ht|].
    apply list_elem_of_fmap in Ht as ([s' e'] & -> & Hr).
    destruct (Hcross (s', e') (s, e) Hr) as [Hlt|[Heq _]];
      [by left|simpl in *; lia|simpl in *; lia].
Qed.

(** X15. Segmenter and label column together: for the ranges that the
    segmenter produces, the row keys of the label column are strictly
    ascending, and [i] is a row key exactly when some window that starts
    at [i] qualifies. *)
Theorem segmenter_row_keys
    (values_x values_y : list Z) (threshold : Z) :
  let timestamps_column :=
    create_timestamps_column
      (get_start_to_end_list values_x values_y threshold) in
  StronglySorted lt (index timestamps_column)
  ∧ ∀ i, i ∈ index timestamps_column
         ↔ i < length values_x
           ∧ ∃ j, j < 30
                  ∧ ((threshold < sum_ints (slice values_x i (i + j)))%Z
                     ∨ (threshold < sum_ints (slice values_y i (i + j)))%Z).
Proof.
  intros timestamps_column. unfold timestamps_column. split.
  - rewrite create_timestamps_column_fill.
    apply fill_rows_index_sorted, segmenter_sorted.
  - intros i. rewrite elem_of_label_keys. split.
    + intros (e & (j & Hi & Hj & _ & Hq)%elem_of_segmenter).
      split; [done|]. exists j. split; [done|]. by rewrite !sum_slice_window.
    + intros (Hi & j & Hj & Hq). exists (i + j). apply elem_of_segmenter.
      exists j. rewrite !sum_slice_window in Hq. done.
Qed.

Lemma series_values_length {A : Type} (s : Series A) :
  length (series_values s) = length (s_index s).
Proof. unfold series_values. by rewrite length_fmap. Qed.

(** X16. The bounds of a range are never an error for the sum column. A
    range that ends past the last row sums the rows up to the last one; a
    range that is empty or starts past the last row gives the sum 0. *)
Theorem sum_column_bounds
    (delta_kp_column : Series Z) (before after : list (nat * nat)) (i j : nat) :
  forallb (λ r, negb (r.1 =? i)) after = true →
  let sum_rows :=
    create_column_of_sum_for_kp_in_range delta_kp_column
      (before ++ (i, j) :: after) in
  let N := length (s_index delta_kp_column) in
  (N ≤ j → cell_at sum_rows "sums" i
           = Some (series_sum (series_slice delta_kp_column i N)))
  ∧ (j ≤ i ∨ N ≤ i → cell_at sum_rows "sums" i = Some 0%Z).
Proof.
  intros Hafter sum_rows N. unfold sum_rows.
  rewrite create_column_of_sum_for_kp_in_range_fill.
  rewrite fill_rows_last_wins by done.
  unfold series_slice, slice. split.
  - intros HN. do 2 f_equal.
    rewrite !take_ge; [done|rewrite length_drop, series_values_length..];
      fold N; lia.
  - intros [Hji|HNi].
    + by replace (j - i) with 0 by lia.
    + rewrite drop_ge by (rewrite series_values_length; fold N; lia).
      by rewrite take_nil.
Qed.

Lemma sum_column_bounds_witness :
  let sum_rows :=
    create_column_of_sum_for_kp_in_range example_column
      ([(1, 3)] ++ (7, 40) :: [(8, 9)]) in
  let N := length (s_index example_column) in
  (N ≤ 40 → cell_at sum_rows "sums" 7
            = Some (series_sum (series_slice example_column 7 N)))
  ∧ (40 ≤ 7 ∨ N ≤ 7 → cell_at sum_rows "sums" 7 = Some 0%Z).
Proof.
  apply (sum_column_bounds example_column [(1, 3)] [(8, 9)] 7 40). reflexivity.
Defined.

(** * The segmenter on lists with NaN *)

(** A doubly nested comprehension of windows: its members and its order. *)
Lemma elem_of_windows (q : nat → nat → bool) (n m s e : nat) :
  (s, e) ∈ (i ← seq 0 n; j ← seq 0 m; if q i j then [(i, i + j)] else [])
  ↔ ∃ j, s < n ∧ j < m ∧ e = s + j ∧ q s j = true.
Proof.
  rewrite list_elem_of_bind. split.
  - intros (i & Hin & Hi). apply list_elem_of_bind in Hin as (j & Hin & Hj).
    apply elem_of_seq in Hi, Hj.
    apply elem_of_if_singleton in Hin as [Hq [= -> ->]].
    exists j. repeat split; (lia || done).
  - intros (j & Hs & Hj & -> & Hq). exists s. split; [|apply elem_of_seq; lia].
    apply list_elem_of_bind. exists j. split; [|apply elem_of_seq; lia].
    rewrite Hq. by apply list_elem_of_singleton.
Qed.

Lemma windows_sorted (q : nat → nat → bool) (n m : nat) :
  StronglySorted range_lt
    (i ← seq 0 n; j ← seq 0 m; if q i j then [(i, i + j)] else []).
Proof.
  apply (StronglySorted_bind lt); [apply StronglySorted_seq| |].
  - intros i _. apply (StronglySorted_bind lt); [apply StronglySorted_seq| |].
    + intros j _. destruct (q i j); repeat constructor.
    + intros j j' x y Hlt Hx Hy.
      apply elem_of_if_singleton in Hx as [_ ->], Hy as [_ ->].
      right. simpl. lia.
  - intros i i' x y Hlt Hx Hy. left.
    apply list_elem_of_bind in Hx as (j & Hx & _).
    apply list_elem_of_bind in Hy as (j' & Hy & _).
    apply elem_of_if_singleton in Hx as [_ ->], Hy as [_ ->]. done.
Qed.

Lemma segmenter_nan_windows (values_x values_y : list (cell Z)) (threshold : Z) :
  get_start_to_end_list_nan values_x values_y threshold
  = (i ← seq 0 (length values_x); j ← seq 0 30;
     if cell_gt (sum_cells (slice values_x i (i + j))) threshold
        || cell_gt (sum_cells (slice values_y i (i + j))) threshold
     then [(i, i + j)] else []).
Proof.
  unfold get_start_to_end_list_nan, range.
  rewrite (foldl_append_bind _
    (λ i, j ← seq 0 30;
          if cell_gt (sum_cells (slice values_x i (i + j))) threshold
             || cell_gt (sum_cells (slice values_y i (i + j))) threshold
          then [(i, i + j)] else [])); [done|].
  intros acc i.
  by rewrite (foldl_append_if
    (λ j, cell_gt (sum_cells (slice values_x i (i + j))) threshold
          || cell_gt (sum_cells (slice values_y i (i + j))) threshold)
    (λ j, (i, i + j))).
Qed.

Lemma segmenter_windows (values_x values_y : list Z) (threshold : Z) :
  get_start_to_end_list values_x values_y threshold
  = (i ← seq 0 (length values_x); j ← seq 0 30;
     if (threshold <? sum_ints (slice values_x i (i + j)))%Z
        || (threshold <? sum_ints (slice values_y i (i + j)))%Z
     then [(i, i + j)] else []).
Proof.
  unfold get_start_to_end_list, range.
  rewrite (foldl_append_bind _
    (λ i, j ← seq 0 30;
          if (threshold <? sum_ints (slice values_x i (i + j)))%Z
             || (threshold <? sum_ints (slice values_y i (i + j)))%Z
          then [(i, i + j)] else [])); [done|].
  intros acc i.
  by rewrite (foldl_append_if
    (λ j, (threshold <? sum_ints (slice values_x i (i + j)))%Z
          || (threshold <? sum_ints (slice values_y i (i + j)))%Z)
    (λ j, (i, i + j))).
Qed.

Lemma foldl_add_cell_numbers (l : list Z) (a : Z) :
  foldl add_cell (Some a) (Some <$> l) = Some (foldl Z.add a l).
Proof. revert a. induction l as [|x l IH]; intros a; simpl; [done|apply IH]. Qed.

Lemma sum_cells_numbers (l : list Z) : sum_cells (Some <$> l) = Some (sum_ints l).
Proof. apply foldl_add_cell_numbers. Qed.

Lemma slice_fmap {A B : Type} (f : A → B) (l : list A) (i j : nat) :
  slice (f <$> l) i j = f <$> slice l i j.
Proof. unfold slice. by rewrite fmap_take, fmap_drop. Qed.

(** On lists of numbers the two readings of the function agree. *)
Lemma segmenter_nan_numbers (values_x values_y : list Z) (threshold : Z) :
  get_start_to_end_list_nan (Some <$> values_x) (Some <$> values_y) threshold
  = get_start_to_end_list values_x values_y threshold.
Proof.
  rewrite segmenter_nan_windows, segmenter_windows, length_fmap.
  apply list_bind_ext; [|done]. intros i.
  apply list_bind_ext; [|done]. intros j.
  by rewrite !slice_fmap, !sum_cells_numbers.
Qed.

Lemma sum_cells_snoc (l : list (cell Z)) (c : cell Z) :
  sum_cells (l ++ [c]) = add_cell (sum_cells l) c.
Proof. unfold sum_cells. by rewrite foldl_snoc. Qed.

Lemma sum_cells_Some (l : list (cell Z)) (z : Z) :
  sum_cells l = Some z ↔ ∃ l', l = Some <$> l' ∧ sum_ints l' = z.
Proof.
  revert z. induction l as [|c l IH] using rev_ind; intros z.
  - split.
    + intros [= <-]. by exists [].
    + intros (l' & Hl & <-). symmetry in Hl. apply fmap_nil_inv in Hl as ->. done.
  - rewrite sum_cells_snoc. split.
    + destruct (sum_cells l) as [a|] eqn:Ha, c as [x|]; simpl; try done.
      intros [= <-]. destruct (proj1 (IH a) eq_refl) as (l' & -> & <-).
      exists (l' ++ [x]). by rewrite fmap_app, sum_ints_snoc.
    + intros (l' & Hl & <-). symmetry in Hl.
      apply fmap_app_inv in Hl as (l1 & l2 & -> & Hc & ->).
      destruct l2 as [|x [|? ?]]; try done. simpl in Hc. injection Hc as ->.
      rewrite (proj2 (IH (sum_ints l1))) by (by exists l1).
      simpl. by rewrite sum_ints_snoc.
Qed.

Lemma cell_gt_sum_cells (l : list (cell Z)) (threshold : Z) :
  cell_gt (sum_cells l) threshold = true
  ↔ ∃ l', l = Some <$> l' ∧ (threshold < sum_ints l')%Z.
Proof.
  unfold cell_gt. destruct (sum_cells l) as [z|] eqn:Hz.
  - rewrite Z.ltb_lt. apply sum_cells_Some in Hz as (l' & -> & <-).
    split; [by exists l'|].
    intros (l'' & Heq & Hlt). apply (inj (fmap Some)) in Heq as ->. done.
  - split; [done|]. intros (l' & -> & _).
    by rewrite sum_cells_numbers in Hz.
Qed.

(** X17. A window with a NaN does not count. On lists that may hold NaN,
    [(s, e)] is produced exactly when [e = s + j] for a window length
    [j < 30] such that, in one of the two channels, the window holds
    numbers only and their sum exceeds the threshold. *)
Theorem nan_windows_never_qualify
    (values_x values_y : list (cell Z)) (threshold : Z) (s e : nat) :
  (s, e) ∈ get_start_to_end_list_nan values_x values_y threshold
  ↔ ∃ j, s < length values_x ∧ j < 30 ∧ e = s + j
         ∧ ((∃ l, slice values_x s (s + j) = Some <$> l
                  ∧ (threshold < sum_ints l)%Z)
            ∨ (∃ l, slice values_y s (s + j) = Some <$> l
                    ∧ (threshold < sum_ints l)%Z)).
Proof.
  rewrite segmenter_nan_windows.
  rewrite (elem_of_windows
    (λ i j, cell_gt (sum_cells (slice values_x i (i + j))) threshold
            || cell_gt (sum_cells (slice values_y i (i + j))) threshold)).
  split; intros (j & Hs & Hj & He & Hq); exists j;
    (split; [done|]; split; [done|]; split; [done|]).
  - apply orb_true_iff in Hq as [Hq|Hq]; [left|right];
      by apply cell_gt_sum_cells.
  - apply orb_true_iff.
    destruct Hq as [Hq|Hq]; [left|right]; by apply cell_gt_sum_cells.
Qed.

(** * The summary table *)

Lemma cell_at_frame_map {A B : Type} (f : A → B) (df : DataFrame A) kp t :
  cell_at (frame_map f df) kp t = f <$> cell_at df kp t.
Proof.
  unfold cell_at, frame_map; simpl.
  unfold lookup_total, map_lookup_total. rewrite lookup_fmap.
  destruct (data df !! kp) as [column|]; simpl.
  - by rewrite lookup_fmap.
  - by rewrite !lookup_empty.
Qed.

Lemma lookup_filter_labels {A : Type} (m : gmap nat A) (idx : list nat) (t : nat) :
  filter (λ kv : nat * A, kv.1 ∈ idx) m !! t
  = if decide (t ∈ idx) then m !! t else None.
Proof.
  rewrite map_lookup_filter. destruct (m !! t) as [x|]; simpl.
  - case_decide; [by rewrite option_guard_True|by rewrite option_guard_False].
  - by case_decide.
Qed.

(** Storing a single-column frame whose row labels are those of the
    target: the rows stay, the column holds the values of the frame. *)
Lemma setitem_frame_aligned {A : Type} (df value : DataFrame A) key c :
  columns value = [c] → index value = index df → key ∈ columns df →
  ∃ df', setitem_frame df key value = Ok df'
         ∧ columns df' = columns df ∧ index df' = index df
         ∧ (∀ t, t ∈ index df → cell_at df' key t = cell_at value c t)
         ∧ (∀ k t, k ≠ key → cell_at df' k t = cell_at df k t).
Proof.
  intros Hc Hidx Hkey. unfold setitem_frame. rewrite Hc, Hidx.
  assert (bool_decide (index df = []) && negb (bool_decide (index df = []))
          = false) as -> by by destruct (bool_decide (index df = [])).
  eexists. split; [done|]. simpl. rewrite decide_True by done.
  split; [done|]. split; [done|]. split.
  - intros t Ht. unfold cell_at; simpl.
    rewrite lookup_total_insert_eq, lookup_filter_labels. by rewrite decide_True.
  - intros k t Hk. unfold cell_at; simpl. by rewrite lookup_total_insert_ne.
Qed.

(** Storing a single-column frame under a new key in a frame without
    rows: the frame takes the rows of the value. *)
Lemma setitem_frame_first {A : Type} (cols : list string) (value : DataFrame A)
    key c :
  columns value = [c] →
  ∃ df', setitem_frame (new_frame cols []) key value = Ok df'
         ∧ columns df' = (if decide (key ∈ cols) then cols else cols ++ [key])
         ∧ index df' = index value
         ∧ (∀ t, t ∈ index value → cell_at df' key t = cell_at value c t).
Proof.
  intros Hc. unfold setitem_frame. rewrite Hc. simpl.
  eexists. split; [done|]. simpl. split; [done|].
  assert (Hidx : (if negb (bool_decide (index value = []))
                  then index value else []) = index value).
  { case_bool_decide as Hv; simpl; [by rewrite Hv|done]. }
  rewrite Hidx. split; [done|].
  intros t Ht. unfold cell_at; simpl.
  rewrite lookup_total_insert_eq, lookup_filter_labels. by rewrite decide_True.
Qed.

Lemma fill_rows_columns {A : Type} col (f : nat → nat → A) ranges :
  columns (fill_rows col f (new_frame [col] []) ranges) = [col].
Proof.
  induction ranges as [|[s e] ranges IH] using rev_ind; [done|].
  rewrite fill_rows_snoc. simpl. rewrite IH.
  by rewrite decide_True by (by left).
Qed.

Section Summary.

Variable deltas_table : DataFrame Z.
Variable ranges : list (nat * nat).

Local Abbreviation body := (store_channel_sums deltas_table ranges).

Lemma summary_column_stored (sums : DataFrame pyval) (kp : string) :
  kp ∈ columns deltas_table → kp ∈ columns sums →
  index sums = index (create_timestamps_column ranges) →
  ∃ sums', body sums kp = Ok sums'
    ∧ columns sums' = columns sums ∧ index sums' = index sums
    ∧ (∀ t, t ∈ index sums →
         cell_at sums' kp t
         = PyInt <$> cell_at (create_column_of_sum_for_kp_in_range
                                (column deltas_table kp) ranges) "sums" t)
    ∧ (∀ k t, k ≠ kp → cell_at sums' k t = cell_at sums k t).
Proof.
  intros Hkp Hkp' Hidx. unfold store_channel_sums, getitem.
  rewrite decide_True by done. simpl.
  destruct (setitem_frame_aligned sums
              (frame_map PyInt
                 (create_column_of_sum_for_kp_in_range
                    (column deltas_table kp) ranges)) kp "sums")
    as (sums' & Hset & Hc & Hi & Hcell & Hother); [| |done|].
  - simpl. rewrite create_column_of_sum_for_kp_in_range_fill.
    apply fill_rows_columns.
  - simpl. rewrite Hidx.
    rewrite create_timestamps_column_fill, create_column_of_sum_for_kp_in_range_fill.
    by apply fill_rows_index_independent.
  - exists sums'. split; [done|]. split; [done|]. split; [done|].
    split; [|done]. intros t Ht. rewrite Hcell by done.
    apply cell_at_frame_map.
Qed.

Lemma summary_columns_stored (ks : list string) :
  (∀ kp, kp ∈ ks → kp ∈ columns deltas_table) →
  ∀ sums,
    (∀ kp, kp ∈ ks → kp ∈ columns sums) →
    index sums = index (create_timestamps_column ranges) →
    ∃ sums', for_each ks body sums = Ok sums'
      ∧ columns sums' = columns sums ∧ index sums' = index sums
      ∧ (∀ kp t, kp ∈ ks → t ∈ index sums →
           cell_at sums' kp t
           = PyInt <$> cell_at (create_column_of_sum_for_kp_in_range
                                  (column deltas_table kp) ranges) "sums" t)
      ∧ (∀ k t, k ∉ ks → cell_at sums' k t = cell_at sums k t).
Proof.
  induction ks as [|k ks IH]; intros Hks sums Hcols Hidx.
  - exists sums. split; [done|]. split; [done|]. split; [done|]. split; [|done].
    intros kp t Hin. by apply elem_of_nil in Hin.
  - destruct (summary_column_stored sums k)
      as (sums1 & Hrun & Hc1 & Hi1 & Hcell1 & Hother1);
      [apply Hks; left|apply Hcols; left|done|].
    destruct (IH (λ kp H, Hks kp (list_elem_of_further _ _ _ H)) sums1)
      as (sums' & Hrest & Hc' & Hi' & Hcell' & Hother').
    { intros kp Hin. rewrite Hc1. apply Hcols. by right. }
    { by rewrite Hi1. }
    exists sums'. simpl. rewrite Hrun. simpl.
    split; [done|]. split; [congruence|]. split; [congruence|]. split.
    + intros kp t Hin Ht. destruct (decide (kp ∈ ks)) as [Hin'|Hnin].
      * apply Hcell'; [done|by rewrite Hi1].
      * apply elem_of_cons in Hin as [->|]; [|done].
        rewrite Hother' by done. by apply Hcell1.
    + intros k' t Hnin. apply not_elem_of_cons in Hnin as [Hne Hnin].
      rewrite Hother' by done. by apply Hother1.
Qed.

End Summary.

Lemma bind_Ok {A B : Type} (f : A → result B) (a : A) : Ok a ≫= f = f a.
Proof. reflexivity. Qed.

Lemma summed_distances_unfold (deltas_table : DataFrame Z) (threshold : Z) :
  "KP_0_x" ∈ columns deltas_table → "KP_0_y" ∈ columns deltas_table →
  get_table_of_summed_distances_for_kp_over_time deltas_table threshold
  = (let ranges :=
       get_start_to_end_list_nan (column_values deltas_table "KP_0_x")
         (column_values deltas_table "KP_0_y") threshold in
     sums ← setitem_frame (new_frame (columns deltas_table) []) "timestamps"
              (frame_map PyStr (create_timestamps_column ranges));
     for_each (columns deltas_table) (store_channel_sums deltas_table ranges)
              sums).
Proof.
  intros Hx Hy.
  assert (Hgx : getitem deltas_table (nose_columns_names !!! 0)
                = Ok (column deltas_table "KP_0_x")).
  { unfold getitem. simpl lookup_total. by rewrite decide_True. }
  assert (Hgy : getitem deltas_table (nose_columns_names !!! 1)
                = Ok (column deltas_table "KP_0_y")).
  { unfold getitem. simpl lookup_total. by rewrite decide_True. }
  unfold get_table_of_summed_distances_for_kp_over_time.
  rewrite Hgx, bind_Ok. cbv zeta. rewrite Hgy, bind_Ok. reflexivity.
Qed.

(** The summary table, put together: it has the channels of the delta
    table and the label column, the row keys of the label column, and in
    every row the cells of the label column and of the sum columns. *)
Lemma summary_assembled (deltas_table : DataFrame Z) (threshold : Z) :
  "KP_0_x" ∈ columns deltas_table → "KP_0_y" ∈ columns deltas_table →
  let ranges :=
    get_start_to_end_list_nan (column_values deltas_table "KP_0_x")
      (column_values deltas_table "KP_0_y") threshold in
  ∃ sums,
    get_table_of_summed_distances_for_kp_over_time deltas_table threshold
    = Ok sums
    ∧ columns sums
      = (if decide ("timestamps" ∈ columns deltas_table)
         then columns deltas_table else columns deltas_table ++ ["timestamps"])
    ∧ index sums = index (create_timestamps_column ranges)
    ∧ (∀ kp t, kp ∈ columns deltas_table → t ∈ index sums →
         cell_at sums kp t
         = PyInt <$> cell_at (create_column_of_sum_for_kp_in_range
                                (column deltas_table kp) ranges) "sums" t)
    ∧ ("timestamps" ∉ columns deltas_table →
       ∀ t, t ∈ index sums →
         cell_at sums "timestamps" t
         = PyStr <$> cell_at (create_timestamps_column ranges) "timestamps" t).
Proof.
  intros Hx Hy ranges.
  rewrite (summed_distances_unfold deltas_table threshold Hx Hy).
  cbv zeta. fold ranges.
  destruct (setitem_frame_first (columns deltas_table)
              (frame_map PyStr (create_timestamps_column ranges))
              "timestamps" "timestamps")
    as (sums0 & -> & Hc0 & Hi0 & Hcell0).
  { simpl. rewrite create_timestamps_column_fill. apply fill_rows_columns. }
  simpl in Hi0. simpl.
  destruct (summary_columns_stored deltas_table ranges (columns deltas_table)
              (λ _ H, H) sums0)
    as (sums & Hrun & Hc & Hi & Hcell & Hother); [|done|].
  { intros kp Hkp. rewrite Hc0. case_decide; [done|].
    apply elem_of_app. by left. }
  exists sums. split; [done|]. split; [congruence|]. split; [congruence|].
  split.
  - intros kp t Hkp Ht. apply Hcell; [done|]. by rewrite <- Hi.
  - intros Hts t Ht. rewrite Hother by done.
    rewrite Hcell0 by (simpl; congruence). apply cell_at_frame_map.
Qed.

(** X18. The reference channels are looked up first: a delta table
    without the column "KP_0_x" raises [KeyError] for it, and one with
    "KP_0_x" but without "KP_0_y" raises [KeyError] for "KP_0_y". *)
Theorem summed_distances_missing_reference
    (deltas_table : DataFrame Z) (threshold : Z) :
  "KP_0_x" ∉ columns deltas_table ∨ "KP_0_y" ∉ columns deltas_table →
  get_table_of_summed_distances_for_kp_over_time deltas_table threshold
  = Raise (KeyError (inl (if decide ("KP_0_x" ∈ columns deltas_table)
                          then "KP_0_y" else "KP_0_x"))).
Proof.
  intros Hmissing.
  unfold get_table_of_summed_distances_for_kp_over_time, nose_columns_names.
  simpl lookup_total.
  destruct (decide ("KP_0_x" ∈ columns deltas_table)) as [Hx|Hx].
  - assert (Hy : "KP_0_y" ∉ columns deltas_table) by tauto.
    assert (getitem deltas_table "KP_0_x" = Ok (column deltas_table "KP_0_x"))
      as -> by (unfold getitem; by rewrite decide_True).
    rewrite bind_Ok. cbv zeta.
    assert (getitem deltas_table "KP_0_y" = Raise (KeyError (inl "KP_0_y")))
      as -> by (unfold getitem; by rewrite decide_False).
    reflexivity.
  - assert (getitem deltas_table "KP_0_x" = Raise (KeyError (inl "KP_0_x")))
      as -> by (unfold getitem; by rewrite decide_False).
    reflexivity.
Qed.

Lemma summed_distances_missing_reference_witness :
  get_table_of_summed_distances_for_kp_over_time no_reference_deltas 4
  = Raise (KeyError (inl (if decide ("KP_0_x" ∈ columns no_reference_deltas)
                          then "KP_0_y" else "KP_0_x"))).
Proof.
  apply summed_distances_missing_reference. left.
  intros H. apply (bool_decide_pack _) in H. vm_compute in H. exact H.
Defined.

(** X19. With both reference channels present the function raises
    nothing. The summary table has the channels of the delta table
    followed by the label column; its row keys are strictly ascending and
    are exactly the start indices of the produced ranges, so a table
    without ranges has columns and no row. *)
Theorem summed_distances_shape (deltas_table : DataFrame Z) (threshold : Z) :
  "KP_0_x" ∈ columns deltas_table → "KP_0_y" ∈ columns deltas_table →
  "timestamps" ∉ columns deltas_table →
  let ranges :=
    get_start_to_end_list_nan (column_values deltas_table "KP_0_x")
      (column_values deltas_table "KP_0_y") threshold in
  ∃ sums,
    get_table_of_summed_distances_for_kp_over_time deltas_table threshold
    = Ok sums
    ∧ columns sums = columns deltas_table ++ ["timestamps"]
    ∧ StronglySorted lt (index sums)
    ∧ (∀ i, i ∈ index sums ↔ ∃ e, (i, e) ∈ ranges)
    ∧ (ranges = [] → index sums = []).
Proof.
  intros Hx Hy Hts ranges.
  destruct (summary_assembled deltas_table threshold Hx Hy)
    as (sums & Hrun & Hcols & Hidx & _).
  fold ranges in Hidx. rewrite decide_False in Hcols by done.
  exists sums. split; [done|]. split; [done|]. rewrite Hidx. split; [|split].
  - rewrite create_timestamps_column_fill. apply fill_rows_index_sorted.
    unfold ranges. rewrite segmenter_nan_windows.
    apply (windows_sorted
      (λ i j, cell_gt (sum_cells (slice (column_values deltas_table "KP_0_x")
                                        i (i + j))) threshold
              || cell_gt (sum_cells (slice (column_values deltas_table "KP_0_y")
                                           i (i + j))) threshold)).
  - intros i. apply elem_of_label_keys.
  - by intros ->.
Qed.

Lemma summed_distances_shape_witness :
  let ranges :=
    get_start_to_end_list_nan (column_values nose_deltas "KP_0_x")
      (column_values nose_deltas "KP_0_y") 4 in
  ∃ sums,
    get_table_of_summed_distances_for_kp_over_time nose_deltas 4 = Ok sums
    ∧ columns sums = columns nose_deltas ++ ["timestamps"]
    ∧ StronglySorted lt (index sums)
    ∧ (∀ i, i ∈ index sums ↔ ∃ e, (i, e) ∈ ranges)
    ∧ (ranges = [] → index sums = []).
Proof.
  apply (summed_distances_shape nose_deltas 4).
  - apply (bool_decide_unpack _). vm_compute. exact I.
  - apply (bool_decide_unpack _). vm_compute. exact I.
  - intros H. apply (bool_decide_pack _) in H. vm_compute in H. exact H.
Defined.

(** In a sorted range list, the range that starts at [i] and ends last is
    the last range that starts at [i]. *)
Lemma sorted_ranges_split (ranges : list (nat * nat)) (i e : nat) :
  StronglySorted range_lt ranges → (i, e) ∈ ranges →
  (∀ e', (i, e') ∈ ranges → e' ≤ e) →
  ∃ before after,
    ranges = before ++ (i, e) :: after
    ∧ forallb (λ r, negb (r.1 =? i)) after = true.
Proof.
  intros Hsorted Hin Hmax.
  apply list_elem_of_split in Hin as (before & after & ->).
  exists before, after. split; [done|].
  apply StronglySorted_app in Hsorted as (_ & _ & Hsorted).
  apply StronglySorted_inv in Hsorted as [_ Hall].
  rewrite Forall_forall in Hall.
  apply forallb_forall. intros [s e'] Hr%list_elem_of_In.
  apply negb_true_iff, Nat.eqb_neq. simpl. intros ->.
  destruct (Hall _ Hr) as [Hlt|[_ Hlt]]; simpl in *; [lia|].
  assert (e' ≤ e); [|lia].
  apply Hmax. apply elem_of_app. right. by right.
Qed.

Lemma summary_row (deltas_table : DataFrame Z) (threshold : Z) (i e : nat) :
  "KP_0_x" ∈ columns deltas_table → "KP_0_y" ∈ columns deltas_table →
  "timestamps" ∉ columns deltas_table →
  let ranges :=
    get_start_to_end_list_nan (column_values deltas_table "KP_0_x")
      (column_values deltas_table "KP_0_y") threshold in
  (i, e) ∈ ranges → (∀ e', (i, e') ∈ ranges → e' ≤ e) →
  ∃ sums,
    get_table_of_summed_distances_for_kp_over_time deltas_table threshold
    = Ok sums
    ∧ cell_at sums "timestamps" i = Some (PyStr (timestamps_label i e))
    ∧ ∀ kp, kp ∈ columns deltas_table →
        cell_at sums kp i
        = Some (PyInt (series_sum (series_slice (column deltas_table kp) i e))).
Proof.
  intros Hx Hy Hts ranges Hin Hmax.
  destruct (summary_assembled deltas_table threshold Hx Hy)
    as (sums & Hrun & _ & Hidx & Hsums & Hlabels).
  fold ranges in Hidx, Hsums, Hlabels.
  assert (Hi : i ∈ index sums).
  { rewrite Hidx. apply elem_of_label_keys. by exists e. }
  destruct (sorted_ranges_split ranges i e) as (before & after & Heq & Hafter);
    [|done..|].
  { unfold ranges. rewrite segmenter_nan_windows.
    apply (windows_sorted
      (λ i j, cell_gt (sum_cells (slice (column_values deltas_table "KP_0_x")
                                        i (i + j))) threshold
              || cell_gt (sum_cells (slice (column_values deltas_table "KP_0_y")
                                           i (i + j))) threshold)). }
  exists sums. split; [done|]. split.
  - rewrite Hlabels by done. rewrite create_timestamps_column_fill, Heq.
    by rewrite fill_rows_last_wins.
  - intros kp Hkp. rewrite Hsums by done.
    rewrite create_column_of_sum_for_kp_in_range_fill, Heq.
    by rewrite fill_rows_last_wins.
Qed.

(** X20. A row of the summary table. If [(i, e)] is the produced range
    that starts at [i] and ends last, the row of key [i] holds the label
    ["i-e"] and, for every channel of the delta table, the sum of the
    channel's deltas over the rows [[i, e)]. *)
Theorem summed_distances_row
    (deltas_table : DataFrame Z) (threshold : Z) (i e : nat) :
  "KP_0_x" ∈ columns deltas_table → "KP_0_y" ∈ columns deltas_table →
  "timestamps" ∉ columns deltas_table →
  let ranges :=
    get_start_to_end_list_nan (column_values deltas_table "KP_0_x")
      (column_values deltas_table "KP_0_y") threshold in
  (i, e) ∈ ranges →
  forallb (λ r, negb (r.1 =? i) || (r.2 <=? e)) ranges = true →
  ∃ sums,
    get_table_of_summed_distances_for_kp_over_time deltas_table threshold
    = Ok sums
    ∧ cell_at sums "timestamps" i = Some (PyStr (timestamps_label i e))
    ∧ ∀ kp, kp ∈ columns deltas_table →
        cell_at sums kp i
        = Some (PyInt (series_sum (series_slice (column deltas_table kp) i e))).
Proof.
  intros Hx Hy Hts ranges Hin Hmax.
  apply summary_row; [done..|].
  intros e' He'. rewrite forallb_forall in Hmax.
  apply list_elem_of_In, Hmax in He'. simpl in He'.
  rewrite Nat.eqb_refl in He'. simpl in He'. by apply Nat.leb_le.
Qed.

Lemma summed_distances_row_witness :
  ∃ sums,
    get_table_of_summed_distances_for_kp_over_time nose_deltas 4 = Ok sums
    ∧ cell_at sums "timestamps" 1 = Some (PyStr (timestamps_label 1 30))
    ∧ ∀ kp, kp ∈ columns nose_deltas →
        cell_at sums kp 1
        = Some (PyInt (series_sum (series_slice (column nose_deltas kp) 1 30))).
Proof.
  apply (summed_distances_row nose_deltas 4 1 30).
  - apply (bool_decide_unpack _). vm_compute. exact I.
  - apply (bool_decide_unpack _). vm_compute. exact I.
  - intros H. apply (bool_decide_pack _) in H. vm_compute in H. exact H.
  - apply (bool_decide_unpack _). vm_compute. exact I.
  - vm_compute. reflexivity.
Defined.

(** X21. When the two reference channels hold numbers and none is
    negative, every row of the summary table spans 29 rows of the delta
    table, wherever the threshold was crossed: the row of key [i] holds
    the label of [(i, i + 29)] and the sums over the rows [[i, i + 29)]. *)
Theorem summed_distances_fixed_window
    (deltas_table : DataFrame Z) (threshold : Z)
    (values_x values_y : list Z) (i : nat) :
  "KP_0_x" ∈ columns deltas_table → "KP_0_y" ∈ columns deltas_table →
  "timestamps" ∉ columns deltas_table →
  column_values deltas_table "KP_0_x" = Some <$> values_x →
  column_values deltas_table "KP_0_y" = Some <$> values_y →
  forallb (λ d, (0 <=? d)%Z) values_x = true →
  forallb (λ d, (0 <=? d)%Z) values_y = true →
  ∃ sums,
    get_table_of_summed_distances_for_kp_over_time deltas_table threshold
    = Ok sums
    ∧ (i ∈ index sums →
       cell_at sums "timestamps" i = Some (PyStr (timestamps_label i (i + 29)))
       ∧ ∀ kp, kp ∈ columns deltas_table →
           cell_at sums kp i
           = Some (PyInt (series_sum
                            (series_slice (column deltas_table kp) i (i + 29))))).
Proof.
  intros Hx Hy Hts Hvx Hvy Hnx Hny.
  destruct (summary_assembled deltas_table threshold Hx Hy)
    as (sums & Hrun & _ & Hidx & _).
  exists sums. split; [done|]. intros Hi.
  rewrite Hidx in Hi. apply elem_of_label_keys in Hi as [e He].
  rewrite Hvx, Hvy, segmenter_nan_numbers in He.
  apply elem_of_segmenter in He as (j & Hlen & Hj & -> & Hq).
  destruct (summary_row deltas_table threshold i (i + 29) Hx Hy Hts)
    as (sums' & Hrun' & Hrow).
  - rewrite Hvx, Hvy, segmenter_nan_numbers.
    apply elem_of_segmenter. exists 29. split; [done|]. split; [unfold W; lia|].
    split; [done|].
    pose proof (clipped_window_sum_mono values_x i j 29 Hnx ltac:(unfold W in Hj; lia)).
    pose proof (clipped_window_sum_mono values_y i j 29 Hny ltac:(unfold W in Hj; lia)).
    lia.
  - intros e'. rewrite Hvx, Hvy, segmenter_nan_numbers.
    intros (j' & _ & Hj' & -> & _)%elem_of_segmenter. unfold W in Hj'. lia.
  - rewrite Hrun in Hrun'. by injection Hrun' as <-.
Qed.

Lemma summed_distances_fixed_window_witness :
  ∃ sums,
    get_table_of_summed_distances_for_kp_over_time nose_deltas 4 = Ok sums
    ∧ (0 ∈ index sums →
       cell_at sums "timestamps" 0 = Some (PyStr (timestamps_label 0 (0 + 29)))
       ∧ ∀ kp, kp ∈ columns nose_deltas →
           cell_at sums kp 0
           = Some (PyInt (series_sum
                            (series_slice (column nose_deltas kp) 0 (0 + 29))))).
Proof.
  apply (summed_distances_fixed_window nose_deltas 4 [1; 4; 2]%Z [0; 0; 3]%Z 0).
  - apply (bool_decide_unpack _). vm_compute. exact I.
  - apply (bool_decide_unpack _). vm_compute. exact I.
  - intros H. apply (bool_decide_pack _) in H. vm_compute in H. exact H.
  - reflexivity.
  - reflexivity.
  - reflexivity.
  - reflexivity.
Defined.

(** * The two functions together *)



